(** * rack: canonical request/response handling for Lambda events

    A shallow embedding of the Go package [rack] (rack.go, context.go,
    processor.go, resolver.go, error.go) together with the handful of
    standard-library operations it calls, and the properties of the
    package that follow from that code.

    Conventions.
    - A Go [map[string]V] is nil or allocated: [option (gmap string V)].
      Reading a nil map yields the zero value, as in Go.
    - [url.Values] and [http.Header] are [map[string][]string]; the
      header methods canonicalise the key they are given, the map itself
      does not.
    - The order in which [range] visits a map is unspecified in Go; every
      function that ranges over a map takes the visiting order as a
      [rangeOrder], and the theorems hold for all of them.
    - JSON parsing and printing (encoding/json, gjson) are collaborators
      outside the package; they are fields of [Externals]. *)

From Stdlib Require Import ZArith Ascii String.
From stdpp Require Import base strings list gmap fin_maps.

Open Scope string_scope.
Open Scope list_scope.
Open Scope Z_scope.

(** ** Bytes and strings (Go: strings, net/textproto) *)

Module Bytes.

Definition code (c : ascii) : nat := nat_of_ascii c.

Definition isLower (c : ascii) : bool :=
  (97 <=? code c)%nat && (code c <=? 122)%nat.

Definition isUpper (c : ascii) : bool :=
  (65 <=? code c)%nat && (code c <=? 90)%nat.

Definition isDigit (c : ascii) : bool :=
  (48 <=? code c)%nat && (code c <=? 57)%nat.

(** ['a' - 'A'] *)
Definition toLower : nat := 32.

Definition upperOf (c : ascii) : ascii := ascii_of_nat (code c - toLower).
Definition lowerOf (c : ascii) : ascii := ascii_of_nat (code c + toLower).

Fixpoint all (p : ascii → bool) (s : string) : bool :=
  match s with
  | EmptyString => true
  | String c s' => p c && all p s'
  end.

End Bytes.

Module Strings.

(** [strings.Split(s, sep)] for a one-byte separator: the pieces of [s]
    between the occurrences of [sep]; one more piece than there are
    separators, so never an empty list. *)
Fixpoint Split (s : string) (sep : ascii) : list string :=
  match s with
  | EmptyString => [EmptyString]
  | String c s' =>
      if Ascii.eqb c sep then EmptyString :: Split s' sep
      else match Split s' sep with
           | piece :: rest => String c piece :: rest
           | [] => [String c EmptyString]
           end
  end.

End Strings.

Module Textproto.
Import Bytes.

(** The token bytes of RFC 7230: letters, digits and
    [! # $ % & ' * + - . ^ _ ` | ~]. *)
Definition validHeaderFieldByte (c : ascii) : bool :=
  isLower c || isUpper c || isDigit c ||
  existsb (Ascii.eqb c)
    ["!"; "#"; "$"; "%"; "&"; "'"; "*"; "+"; "-"; "."; "^"; "_"; "`"; "|"; "~"]%char.

(** One step of the rewriting loop of [canonicalMIMEHeaderKey]: upper
    case at the start and after a dash, lower case elsewhere. *)
Definition canonicalByte (upper : bool) (c : ascii) : ascii :=
  if upper && isLower c then upperOf c
  else if negb upper && isUpper c then lowerOf c
  else c.

Fixpoint canonicalize (upper : bool) (a : string) : string :=
  match a with
  | EmptyString => EmptyString
  | String c a' =>
      let c' := canonicalByte upper c in
      String c' (canonicalize (Ascii.eqb c' "-") a')
  end.

(** [textproto.CanonicalMIMEHeaderKey]: a key holding a byte that is not
    a token byte is returned unchanged. *)
Definition CanonicalMIMEHeaderKey (s : string) : string :=
  if all validHeaderFieldByte s then canonicalize true s else s.

End Textproto.

(** ** Go maps *)

(** [m[k]] in its comma-ok form; a nil map has no entries. *)
Definition index {V : Type} (m : option (gmap string V)) (k : string) : option V :=
  m ≫= (λ g, g !! k).

(** The visiting order of [for k, v := range m]. *)
Record rangeOrder := RangeOrder {
  range : ∀ {V : Type}, gmap string V → list (string * V);
  range_Permutation : ∀ (V : Type) (m : gmap string V), range m ≡ₚ map_to_list m
}.

(** One visiting order, used to run the examples. *)
Definition keyOrder : rangeOrder :=
  {| range := λ V m, map_to_list m;
     range_Permutation := λ V m, reflexivity (map_to_list m) |}.

(** Ranging over a nil map visits nothing. *)
Definition entries {V : Type} (ro : rangeOrder) (m : option (gmap string V))
  : list (string * V) :=
  range ro (default ∅ m).

Module Url.

(** [url.Values.Get] *)
Definition Get (v : option (gmap string (list string))) (key : string) : string :=
  match index v key with
  | Some (x :: _) => x
  | _ => ""
  end.

(** [url.Values.Add]: [v[key] = append(v[key], value)] *)
Definition Add (key value : string) (v : gmap string (list string))
  : gmap string (list string) :=
  <[key := default [] (v !! key) ++ [value]]> v.

End Url.

Module Http.
Import Textproto.

(** [http.Header.Values] *)
Definition Values (h : option (gmap string (list string))) (key : string)
  : list string :=
  default [] (index h (CanonicalMIMEHeaderKey key)).

(** [http.Header.Get] *)
Definition Get (h : option (gmap string (list string))) (key : string) : string :=
  match index h (CanonicalMIMEHeaderKey key) with
  | Some (x :: _) => x
  | _ => ""
  end.

(** [http.Header.Add] *)
Definition Add (key value : string) (h : gmap string (list string))
  : gmap string (list string) :=
  let key := CanonicalMIMEHeaderKey key in
  <[key := default [] (h !! key) ++ [value]]> h.

(** [http.Header.Set] *)
Definition Set_ (key value : string) (h : gmap string (list string))
  : gmap string (list string) :=
  <[CanonicalMIMEHeaderKey key := [value]]> h.

Definition StatusOK : Z := 200.
Definition StatusBadRequest : Z := 400.
Definition StatusConflict : Z := 409.
Definition StatusInternalServerError : Z := 500.

End Http.

(** ** Errors (error.go, Go: errors) *)

(** The error values a handler can return.  [StatusError] is the package's
    own type; [customError] and [customWrap] stand for every other error
    type, described by the three things the package can observe of it:
    its message, its [Code() int] method if it has one, and what it
    unwraps to.  (A [StatusError] built around a nil error has no message
    to report and is not a value of this type.) *)
Inductive error : Type :=
  | errorString (s : string)
  | StatusError (code : Z) (err : error)
  | customError (msg : string) (code : option Z)
  | customWrap (msg : string) (code : option Z) (cause : error).

(** [errors.New] *)
Definition errors_New (s : string) : error := errorString s.

(** [WrapError] *)
Definition WrapError (code : Z) (err : error) : error := StatusError code err.

(** The [Error() string] method. *)
Fixpoint Error (e : error) : string :=
  match e with
  | errorString s => s
  | StatusError _ err => Error err
  | customError msg _ => msg
  | customWrap msg _ _ => msg
  end.

(** The [Unwrap() error] method, [None] where the type has none or it
    returns nil. *)
Definition Unwrap (e : error) : option error :=
  match e with
  | errorString _ => None
  | StatusError _ err => Some err
  | customError _ _ => None
  | customWrap _ _ cause => Some cause
  end.

(** The [Code() int] method of the [statusError] interface, [None] where
    the dynamic type does not implement it. *)
Definition Code (e : error) : option Z :=
  match e with
  | errorString _ => None
  | StatusError code _ => Some code
  | customError _ code => code
  | customWrap _ code _ => code
  end.

(** [errors.As(err, &se)] for [se] of interface type [statusError],
    followed by [se.Code()]: the first error of the chain that implements
    the interface. *)
Fixpoint As (err : error) : option Z :=
  match err with
  | errorString _ => None
  | StatusError code _ => Some code
  | customError _ code => code
  | customWrap _ (Some code) _ => Some code
  | customWrap _ None cause => As cause
  end.

(** [StatusCode] *)
Definition StatusCode (err : error) : Z :=
  match As err with
  | Some code => code
  | None => Http.StatusInternalServerError
  end.

(** The cause chain of an error: the error, what it unwraps to, and so on. *)
Fixpoint chain (e : error) : list error :=
  e :: match e with
       | StatusError _ err => chain err
       | customWrap _ _ cause => chain cause
       | _ => []
       end.

(** A Go call returning [(T, error)]. *)
Inductive result (A : Type) : Type :=
  | Ok (a : A)
  | Err (e : error).
Arguments Ok {A} a.
Arguments Err {A} e.

(** ** Wire events (aws-lambda-go/events), the fields the package reads
    and writes *)

Record APIGatewayProxyRequest := {
  gw_Path : string;
  gw_HTTPMethod : string;
  gw_Headers : option (gmap string string);
  gw_MultiValueHeaders : option (gmap string (list string));
  gw_QueryStringParameters : option (gmap string string);
  gw_MultiValueQueryStringParameters : option (gmap string (list string));
  gw_PathParameters : option (gmap string string);
  gw_Body : string
}.

Record APIGatewayV2HTTPRequest := {
  v2_Headers : option (gmap string string);
  v2_QueryStringParameters : option (gmap string string);
  v2_PathParameters : option (gmap string string);
  v2_RequestContext_HTTP_Method : string;
  v2_RequestContext_HTTP_Path : string;
  v2_Body : string
}.

Record ALBTargetGroupRequest := {
  alb_HTTPMethod : string;
  alb_Path : string;
  alb_QueryStringParameters : option (gmap string string);
  alb_MultiValueQueryStringParameters : option (gmap string (list string));
  alb_Headers : option (gmap string string);
  alb_MultiValueHeaders : option (gmap string (list string));
  alb_Body : string
}.

Record APIGatewayProxyResponse := {
  gwr_StatusCode : Z;
  gwr_Headers : gmap string string;
  gwr_MultiValueHeaders : gmap string (list string);
  gwr_Body : string;
  gwr_IsBase64Encoded : bool
}.

Record APIGatewayV2HTTPResponse := {
  v2r_StatusCode : Z;
  v2r_Headers : gmap string string;
  v2r_MultiValueHeaders : gmap string (list string);
  v2r_Body : string;
  v2r_IsBase64Encoded : bool;
  v2r_Cookies : list string
}.

Record ALBTargetGroupResponse := {
  albr_StatusCode : Z;
  albr_StatusDescription : string;
  albr_Headers : gmap string string;
  albr_MultiValueHeaders : gmap string (list string);
  albr_Body : string;
  albr_IsBase64Encoded : bool
}.

(** The value behind [Request.Event]. *)
Inductive wireEvent : Type :=
  | ProxyEvent (e : APIGatewayProxyRequest)
  | V2Event (e : APIGatewayV2HTTPRequest)
  | ALBEvent (e : ALBTargetGroupRequest).

(** The value handed to [json.Marshal] by a processor. *)
Inductive wireResponse : Type :=
  | ProxyResponse (r : APIGatewayProxyResponse)
  | V2Response (r : APIGatewayV2HTTPResponse)
  | ALBResponse (r : ALBTargetGroupResponse).

Definition wireStatusCode (w : wireResponse) : Z :=
  match w with
  | ProxyResponse r => gwr_StatusCode r
  | V2Response r => v2r_StatusCode r
  | ALBResponse r => albr_StatusCode r
  end.

Definition wireHeaders (w : wireResponse) : gmap string string :=
  match w with
  | ProxyResponse r => gwr_Headers r
  | V2Response r => v2r_Headers r
  | ALBResponse r => albr_Headers r
  end.

Definition wireMultiValueHeaders (w : wireResponse) : gmap string (list string) :=
  match w with
  | ProxyResponse r => gwr_MultiValueHeaders r
  | V2Response r => v2r_MultiValueHeaders r
  | ALBResponse r => albr_MultiValueHeaders r
  end.

Definition wireBody (w : wireResponse) : string :=
  match w with
  | ProxyResponse r => gwr_Body r
  | V2Response r => v2r_Body r
  | ALBResponse r => albr_Body r
  end.

(** ** The canonical model (rack.go) *)

Record Request := {
  Method : string;
  RawPath : string;
  Path : option (gmap string string);
  Query : option (gmap string (list string));
  Header : option (gmap string (list string));
  Body : string;
  Event : option wireEvent
}.

(** The header map of a response is the one the pipeline allocates;
    handlers add to it and do not replace it by nil. *)
Record Response := {
  StatusCode_ : Z;
  Headers : gmap string (list string);
  Body_ : string
}.

Definition payload : Type := list Byte.byte.

(** The JSON collaborators.  [gjson_Exists p path] and [gjson_String p path]
    are [gjson.GetBytes(p, path).Exists()] and [.String()]; the
    [Unmarshal_*] fields are [json.Unmarshal] into a fresh event of the
    given type; [Marshal_response] is [json.Marshal] of a wire response;
    [Marshal_string] is the JSON text of a Go string; [StatusText] is
    [http.StatusText]. *)
Record Externals := {
  gjson_Exists : payload → string → bool;
  gjson_String : payload → string → string;
  Unmarshal_APIGatewayProxyRequest : payload → result APIGatewayProxyRequest;
  Unmarshal_APIGatewayV2HTTPRequest : payload → result APIGatewayV2HTTPRequest;
  Unmarshal_ALBTargetGroupRequest : payload → result ALBTargetGroupRequest;
  Marshal_response : wireResponse → result payload;
  Marshal_string : string → string;
  StatusText : Z → string
}.

(** ** Processors (processor.go) *)

Record Processor := {
  CanProcess : payload → bool;
  UnmarshalRequest : payload → result Request;
  MarshalResponse : Response → result payload
}.

Section Processors.
Variable X : Externals.
Variable ro : rangeOrder.

(** [mergeMaps]; [addFn] updates the map it closes over, here the
    accumulator [acc]. *)
Definition mergeMaps {A : Type}
    (sv : option (gmap string string)) (mv : option (gmap string (list string)))
    (addFn : string → string → A → A) (acc : A) : A :=
  let acc := foldl (λ acc kv, addFn kv.1 kv.2 acc) acc (entries ro sv) in
  foldl (λ acc kvs, foldl (λ acc v, addFn kvs.1 v acc) acc kvs.2) acc (entries ro mv).

(** [reduceHeaders] *)
Definition reduceHeaders (h : gmap string (list string)) : gmap string string :=
  foldl (λ m kv, <[kv.1 := Http.Get (Some h) kv.1]> m) ∅ (range ro h).

(** The request built by the Gateway-Proxy processor from the decoded
    event. *)
Definition fromAPIGatewayProxyRequest (e : APIGatewayProxyRequest) : Request :=
  let q := gw_MultiValueQueryStringParameters e in
  let h := gw_MultiValueHeaders e in
  {| Method := gw_HTTPMethod e;
     RawPath := gw_Path e;
     Path := gw_PathParameters e;
     Query := q;
     Header := h;
     Body := gw_Body e;
     Event := Some (ProxyEvent e) |}.

Definition toAPIGatewayProxyResponse (r : Response) : APIGatewayProxyResponse :=
  {| gwr_StatusCode := StatusCode_ r;
     gwr_Headers := reduceHeaders (Headers r);
     gwr_MultiValueHeaders := Headers r;
     gwr_Body := Body_ r;
     gwr_IsBase64Encoded := false |}.

Definition APIGatewayProxyEventProcessor : Processor :=
  {| CanProcess := λ payload,
       negb (gjson_Exists X payload "version")
       && gjson_Exists X payload "requestContext.apiId";
     UnmarshalRequest := λ payload,
       match Unmarshal_APIGatewayProxyRequest X payload with
       | Err err => Err err
       | Ok e => Ok (fromAPIGatewayProxyRequest e)
       end;
     MarshalResponse := λ r,
       Marshal_response X (ProxyResponse (toAPIGatewayProxyResponse r)) |}.

(** The request built by the Gateway-V2 processor. *)
Definition fromAPIGatewayV2HTTPRequest (e : APIGatewayV2HTTPRequest) : Request :=
  let q :=
    foldl (λ q kps, foldl (λ q v, Url.Add kps.1 v q) q (Strings.Split kps.2 ","))
          ∅ (entries ro (v2_QueryStringParameters e)) in
  let h := mergeMaps (v2_Headers e) None Http.Add ∅ in
  {| Method := v2_RequestContext_HTTP_Method e;
     RawPath := v2_RequestContext_HTTP_Path e;
     Path := v2_PathParameters e;
     Query := Some q;
     Header := Some h;
     Body := v2_Body e;
     Event := Some (V2Event e) |}.

Definition toAPIGatewayV2HTTPResponse (r : Response) : APIGatewayV2HTTPResponse :=
  {| v2r_StatusCode := StatusCode_ r;
     v2r_Headers := reduceHeaders (Headers r);
     v2r_MultiValueHeaders := Headers r;
     v2r_Body := Body_ r;
     v2r_IsBase64Encoded := false;
     v2r_Cookies := [] |}.

Definition APIGatewayV2HTTPEventProcessor : Processor :=
  {| CanProcess := λ payload,
       String.eqb (gjson_String X payload "version") "2.0"
       && gjson_Exists X payload "requestContext.apiId";
     UnmarshalRequest := λ payload,
       match Unmarshal_APIGatewayV2HTTPRequest X payload with
       | Err err => Err err
       | Ok e => Ok (fromAPIGatewayV2HTTPRequest e)
       end;
     MarshalResponse := λ r,
       Marshal_response X (V2Response (toAPIGatewayV2HTTPResponse r)) |}.

(** The request built by the Load-Balancer processor. *)
Definition fromALBTargetGroupRequest (e : ALBTargetGroupRequest) : Request :=
  let q := mergeMaps (alb_QueryStringParameters e)
                     (alb_MultiValueQueryStringParameters e) Url.Add ∅ in
  let h := mergeMaps (alb_Headers e) (alb_MultiValueHeaders e) Http.Add ∅ in
  {| Method := alb_HTTPMethod e;
     RawPath := alb_Path e;
     Path := Some ∅;
     Query := Some q;
     Header := Some h;
     Body := alb_Body e;
     Event := Some (ALBEvent e) |}.

Definition toALBTargetGroupResponse (r : Response) : ALBTargetGroupResponse :=
  {| albr_StatusCode := StatusCode_ r;
     albr_StatusDescription := StatusText X (StatusCode_ r);
     albr_Headers := reduceHeaders (Headers r);
     albr_MultiValueHeaders := Headers r;
     albr_Body := Body_ r;
     albr_IsBase64Encoded := false |}.

Definition ALBTargetGroupEventProcessor : Processor :=
  {| CanProcess := λ payload, gjson_Exists X payload "requestContext.elb";
     UnmarshalRequest := λ payload,
       match Unmarshal_ALBTargetGroupRequest X payload with
       | Err err => Err err
       | Ok e => Ok (fromALBTargetGroupRequest e)
       end;
     MarshalResponse := λ r,
       Marshal_response X (ALBResponse (toALBTargetGroupResponse r)) |}.

End Processors.

(** ** Resolvers (resolver.go) *)

(** [resolverFunc]; [Resolve] calls it. *)
Definition Resolver : Type := payload → result Processor.

Definition Resolve (r : Resolver) (payload : payload) : result Processor := r payload.

Definition ErrUnsupportedEventType : error := errors_New "unsupported event type".

(** [NewStaticResolver] *)
Definition NewStaticResolver (p : Processor) : Resolver := λ _, Ok p.

(** [NewConditionalResolver]: the loop over [p] returns at the first
    processor that can process the payload. *)
Fixpoint NewConditionalResolver (p : list Processor) : Resolver :=
  λ payload,
    match p with
    | [] => Err ErrUnsupportedEventType
    | pp :: rest =>
        if CanProcess pp payload then Ok pp
        else NewConditionalResolver rest payload
    end.

Definition defaultResolver (X : Externals) (ro : rangeOrder) : Resolver :=
  NewConditionalResolver
    [ APIGatewayProxyEventProcessor X ro;
      APIGatewayV2HTTPEventProcessor X ro;
      ALBTargetGroupEventProcessor X ro ].

(** ** The handler context (context.go) and the pipeline (rack.go) *)

(** The stages an invocation passes through, recorded by [NewWithConfig]
    next to what it returns. *)
Inductive Stage : Type :=
  | Resolving
  | Decoding
  | Executing
  | ErrorRecovery
  | DefaultResponseCheck
  | EmptyResponsePolicy
  | Encoding.

Section Pipeline.
(** [W]: what the closures of handlers, middleware and callbacks reach
    besides the context (a log, a counter, ...).
    [Any]: the values kept in the context store.
    [T]: the type of the value handed to [Bind], with [json.Unmarshal]
    into it; a failed decode may already have written part of it. *)
Context {W Any T : Type}.
Variable Unmarshal : string → T → T * option error.
Variable X : Externals.
Variable ro : rangeOrder.

(** What [*handlerContext] points to and a handler can change.  (The
    ambient [context.Context] and the mutex take no part in what
    follows.) *)
Record state := {
  request : Request;
  response : Response;
  store : option (gmap string Any);
  env : W
}.

(** A Go function with access to the context, returning [A]. *)
Definition M (A : Type) : Type := state → state * A.

Definition ret {A : Type} (a : A) : M A := λ s, (s, a).

Definition bind {A B : Type} (m : M A) (f : A → M B) : M B :=
  λ s, let '(s', a) := m s in f a s'.

(** The part of the context that is fixed when it is built: the bind
    callback.  The callback reaches the context through the state. *)
Record handlerContext := {
  onBind : T → M (T * option error)
}.

Definition HandlerFunc : Type := handlerContext → M (option error).

Definition MiddlewareFunc : Type := HandlerFunc → HandlerFunc.

Record Config := {
  Resolver_ : option Resolver;
  Middleware : option MiddlewareFunc;
  OnBind : option (T → M (T * option error));
  OnError : option (handlerContext → error → M (option error));
  OnEmptyResponse : option HandlerFunc
}.

Definition setResponse (r : Response) (s : state) : state :=
  {| request := request s; response := r; store := store s; env := env s |}.

(** [Get] *)
Definition Get (c : handlerContext) (key : string) : M (option Any) :=
  λ s, (s, index (store s) key).

(** [Set] *)
Definition Set_ (c : handlerContext) (key : string) (v : Any) : M unit :=
  λ s, ({| request := request s; response := response s;
           store := match store s with
                    | None => Some {[key := v]}
                    | Some m => Some (<[key := v]> m)
                    end;
           env := env s |}, tt).

(** [Path] *)
Definition Path_ (c : handlerContext) (key : string) : M string :=
  λ s, (s, default "" (index (Path (request s)) key)).

(** [Query] *)
Definition Query_ (c : handlerContext) (key : string) : M string :=
  λ s, (s, Url.Get (Query (request s)) key).

(** [Bind] *)
Definition Bind (c : handlerContext) (v : T) : M (T * option error) :=
  λ s,
    if decide (Body (request s) = "") then (s, (v, None))
    else
      match Unmarshal (Body (request s)) v with
      | (v', Some err) => (s, (v', Some (WrapError Http.StatusBadRequest err)))
      | (v', None) => onBind c v' s
      end.

(** [NoContent] *)
Definition NoContent (c : handlerContext) (code : Z) : M (option error) :=
  λ s,
    (setResponse {| StatusCode_ := code;
                    Headers := Headers (response s);
                    Body_ := Body_ (response s) |} s, None).

(** [String] *)
Definition String_ (c : handlerContext) (code : Z) (str : string) : M (option error) :=
  λ s,
    (setResponse {| StatusCode_ := code;
                    Headers := <["Content-Type" := ["text/plain"]]> (Headers (response s));
                    Body_ := str |} s, None).

(** [JSON]; [marshal] is [json.Marshal] at the type of [v]. *)
Definition JSON {V : Type} (marshal : V → result string)
    (c : handlerContext) (code : Z) (v : V) : M (option error) :=
  λ s,
    match marshal v with
    | Err err => (s, Some err)
    | Ok b =>
        (setResponse {| StatusCode_ := code;
                        Headers := <["Content-Type" := ["application/json"]]>
                                     (Headers (response s));
                        Body_ := b |} s, None)
    end.

Definition quote : string := String "034" EmptyString.

(** [json.Marshal] of [struct { Message string `json:"message"` }]. *)
Definition marshalMessage (Message : string) : result string :=
  Ok ("{" +:+ quote +:+ "message" +:+ quote +:+ ":" +:+ Marshal_string X Message +:+ "}").

(** [defaultErrorHandler] *)
Definition defaultErrorHandler (c : handlerContext) (err : error) : M (option error) :=
  JSON marshalMessage c (StatusCode err) (Error err).

(** [Chain]: the loop [for i := len(m) - 1; i >= 0; i--] with [i + 1]
    as the counter. *)
Fixpoint chainLoop (m : list MiddlewareFunc) (i : nat) (n : HandlerFunc) : HandlerFunc :=
  match i with
  | O => n
  | S j => chainLoop m j (match m !! j with Some mj => mj n | None => n end)
  end.

Definition Chain (m : list MiddlewareFunc) : MiddlewareFunc :=
  λ n, chainLoop m (length m) n.

Record Outcome := {
  stages : list Stage;
  world : W;
  returned : result payload
}.

(** [if err != nil { if err = onError(c, err); err != nil { return nil, err } }]:
    the state, the stages passed and the error to return, if any. *)
Definition recover (onError : handlerContext → error → M (option error))
    (c : handlerContext) (r : state * option error)
  : state * list Stage * option error :=
  match r with
  | (s, None) => (s, [], None)
  | (s, Some err) =>
      let '(s', r') := onError c err s in (s', [ErrorRecovery], r')
  end.

(** The defaults [NewWithConfig] fills in (rack.go, lines 56-80). *)
Definition handlerOf (cfg : Config) (h : HandlerFunc) : HandlerFunc :=
  match Middleware cfg with Some m => m h | None => h end.

Definition resolverOf (cfg : Config) : Resolver :=
  default (defaultResolver X ro) (Resolver_ cfg).

Definition onErrorOf (cfg : Config) : handlerContext → error → M (option error) :=
  default defaultErrorHandler (OnError cfg).

Definition onBindOf (cfg : Config) : T → M (T * option error) :=
  default (λ v, ret (v, None)) (OnBind cfg).

Definition onEmptyResponseOf (cfg : Config) : HandlerFunc :=
  default (λ c, NoContent c Http.StatusOK) (OnEmptyResponse cfg).

(** The context built for one invocation (rack.go, lines 93-101): the
    fixed part and what it points to. *)
Definition newContext (cfg : Config) : handlerContext :=
  {| onBind := onBindOf cfg |}.

Definition newState (req : Request) (w : W) : state :=
  {| request := req;
     response := {| StatusCode_ := 0; Headers := ∅; Body_ := "" |};
     store := None;
     env := w |}.

(** [NewWithConfig]: the function behind the returned [lambda.Handler]. *)
Definition NewWithConfig (cfg : Config) (h : HandlerFunc) : payload → W → Outcome :=
  let h := handlerOf cfg h in
  let resolver := resolverOf cfg in
  let onError := onErrorOf cfg in
  let onEmptyResponse := onEmptyResponseOf cfg in
  λ payload w,
    match Resolve resolver payload with
    | Err err => {| stages := [Resolving]; world := w; returned := Err err |}
    | Ok p =>
      match UnmarshalRequest p payload with
      | Err err =>
          {| stages := [Resolving; Decoding]; world := w; returned := Err err |}
      | Ok req =>
        let c := newContext cfg in
        let s := newState req w in
        let '(s, t1, abort) := recover onError c (h c s) in
        let pre := [Resolving; Decoding; Executing] ++ t1 in
        match abort with
        | Some err => {| stages := pre; world := env s; returned := Err err |}
        | None =>
          let '(s, t2, abort) :=
            if StatusCode_ (response s) =? 0 then
              let '(s, t, abort) := recover onError c (onEmptyResponse c s) in
              (s, EmptyResponsePolicy :: t, abort)
            else (s, [], None) in
          let pre := pre ++ [DefaultResponseCheck] ++ t2 in
          match abort with
          | Some err => {| stages := pre; world := env s; returned := Err err |}
          | None =>
              {| stages := pre ++ [Encoding];
                 world := env s;
                 returned := MarshalResponse p (response s) |}
          end
        end
      end
    end.

(** [New] *)
Definition New (h : HandlerFunc) : payload → W → Outcome :=
  NewWithConfig {| Resolver_ := None; Middleware := None; OnBind := None;
                   OnError := None; OnEmptyResponse := None |} h.

End Pipeline.

Notation "x <- m ;; k" := (bind m (λ x, k))
  (at level 100, m at next level, right associativity).

(** ** Fixtures of the test suite *)

(** [mw] of [TestChain], with the [strings.Builder] as the world: write
    [str], run the next handler, write [str] again (the deferred call). *)
Definition WriteString {Any : Type} (str : string) : @M string Any unit :=
  λ s, ({| request := request s; response := response s; store := store s;
           env := env s +:+ str |}, tt).

Definition mw {Any T : Type} (str : string) : @MiddlewareFunc string Any T :=
  λ n c, _ <- WriteString str ;; r <- n c ;; _ <- WriteString str ;; ret r.

(** A middleware with code before and after the call of the next
    handler. *)
Definition around {W Any T : Type} (before after : @M W Any unit)
  : @MiddlewareFunc W Any T :=
  λ n c, _ <- before ;; r <- n c ;; _ <- after ;; ret r.

(** [newV2Request] of rack_test.go with the given body. *)
Definition newV2Request (body : string) : APIGatewayV2HTTPRequest :=
  {| v2_Headers := None;
     v2_QueryStringParameters := None;
     v2_PathParameters := None;
     v2_RequestContext_HTTP_Method := "";
     v2_RequestContext_HTTP_Path := "";
     v2_Body := body |}.

(** JSON collaborators for running the pipeline on a test payload: a
    payload is the body of a [newV2Request], its bytes; strings without
    special characters print between quotes. *)
Definition testJSON : Externals :=
  {| gjson_Exists := λ _ path,
       bool_decide (path = "version") || bool_decide (path = "requestContext.apiId");
     gjson_String := λ _ path, if bool_decide (path = "version") then "2.0" else "";
     Unmarshal_APIGatewayProxyRequest := λ _, Err (errors_New "unexpected end of JSON input");
     Unmarshal_APIGatewayV2HTTPRequest := λ p, Ok (newV2Request (string_of_list_byte p));
     Unmarshal_ALBTargetGroupRequest := λ _, Err (errors_New "unexpected end of JSON input");
     Marshal_response := λ _, Ok [];
     Marshal_string := λ s, quote +:+ s +:+ quote;
     StatusText := λ _, "" |}.

(** [json.Unmarshal] into a target of type [string] for the tests of
    [Bind]: the body [{] is malformed, any other body is stored. *)
Definition testUnmarshal (body : string) (v : string) : string * option error :=
  if decide (body = "{") then (v, Some (errors_New "unexpected end of JSON input"))
  else (body, None).

(** The JSON text of [struct{Message string}{text}] for a [text] without
    special characters: {"message":"text"}. *)
Definition messageBody (text : string) : string :=
  "{" +:+ quote +:+ "message" +:+ quote +:+ ":" +:+ quote +:+ text +:+ quote +:+ "}".

(** The handler of [TestNew], case [should handle handler errors]. *)
Definition conflictHandler {W Any T : Type} : @HandlerFunc W Any T :=
  λ _, ret (Some (WrapError Http.StatusConflict (errors_New "error"))).

(** The response that handler leads to under the default configuration. *)
Definition conflictResponse : Response :=
  {| StatusCode_ := 409;
     Headers := {[ "Content-Type" := ["application/json"] ]};
     Body_ := messageBody "error" |}.

(** A handler that fails, and a configuration whose error handler takes
    note of nothing and reports success. *)
Definition failingHandler : @HandlerFunc unit unit unit :=
  λ _, ret (Some (errors_New "error")).

(** A handler that fails with a status error whose code is 0. *)
Definition zeroStatusHandler : @HandlerFunc unit unit unit :=
  λ _, ret (Some (WrapError 0 (errors_New "error"))).

Definition swallowErrors : @Config unit unit unit :=
  {| Resolver_ := None; Middleware := None; OnBind := None;
     OnError := Some (λ _ _, ret None); OnEmptyResponse := None |}.

(** A context whose bind callback counts its calls in the world and
    rejects what was bound, and a state holding a request with the given
    body. *)
Definition countingContext : @handlerContext nat unit string :=
  {| onBind := λ v s,
       ({| request := request s; response := response s; store := store s;
           env := S (env s) |},
        (v, Some (errors_New "invalid"))) |}.

Definition stateWithBody (body : string) : @state nat unit :=
  newState (fromAPIGatewayV2HTTPRequest keyOrder (newV2Request body)) 0%nat.

(** Load-Balancer events as in processor_test.go, with the given query
    string and header maps. *)
Definition albRequest (sv : option (gmap string string))
    (mv : option (gmap string (list string)))
    (svh : option (gmap string string))
    (mvh : option (gmap string (list string))) : ALBTargetGroupRequest :=
  {| alb_HTTPMethod := "GET";
     alb_Path := "/resource/";
     alb_QueryStringParameters := sv;
     alb_MultiValueQueryStringParameters := mv;
     alb_Headers := svh;
     alb_MultiValueHeaders := mvh;
     alb_Body := "body" |}.

(** A Gateway-Proxy event with the given multi-value headers and no
    query string or path parameters: the decoded form of a payload
    without the fields queryStringParameters,
    multiValueQueryStringParameters and pathParameters. *)
Definition proxyRequest (mvh : option (gmap string (list string)))
  : APIGatewayProxyRequest :=
  {| gw_Path := "/resource/";
     gw_HTTPMethod := "GET";
     gw_Headers := None;
     gw_MultiValueHeaders := mvh;
     gw_QueryStringParameters := None;
     gw_MultiValueQueryStringParameters := None;
     gw_PathParameters := None;
     gw_Body := "" |}.

(** A Gateway-V2 event with the given headers and query string. *)
Definition v2Request (headers query : option (gmap string string))
  : APIGatewayV2HTTPRequest :=
  {| v2_Headers := headers;
     v2_QueryStringParameters := query;
     v2_PathParameters := None;
     v2_RequestContext_HTTP_Method := "GET";
     v2_RequestContext_HTTP_Path := "/resource/";
     v2_Body := "" |}.

(** A response whose header key was written as it came, in lower case. *)
Definition lowerCaseResponse : Response :=
  {| StatusCode_ := 200;
     Headers := {[ "x-request-id" := ["a"; "b"] ]};
     Body_ := "" |}.

(** A response carrying the headers of a decoded request. *)
Definition echoHeaders (req : Request) : Response :=
  {| StatusCode_ := 200; Headers := default ∅ (Header req); Body_ := "" |}.

(** The wire responses of the three processors for one response. *)
Definition wireResponses (X : Externals) (ro : rangeOrder) (r : Response)
  : list wireResponse :=
  [ ProxyResponse (toAPIGatewayProxyResponse ro r);
    V2Response (toAPIGatewayV2HTTPResponse ro r);
    ALBResponse (toALBTargetGroupResponse X ro r) ].

(** ** Vocabulary of the statements *)

(** The shared shape of [url.Values.Add] and [http.Header.Add]: append
    under the key [f key]. *)
Definition addUnder (f : string → string) (key value : string)
    (m : gmap string (list string)) : gmap string (list string) :=
  <[f key := default [] (m !! f key) ++ [value]]> m.

(** The key/value pairs of a multi-value entry list, in order. *)
Definition flat (l : list (string * list string)) : list (string * string) :=
  l ≫= (λ kvs, (λ v, (kvs.1, v)) <$> kvs.2).

(** The values visited under a key [K], keys compared after [f]. *)
Definition valuesUnder (f : string → string) (K : string) (l : list (string * string))
  : list string :=
  (filter (λ kv, f kv.1 = K) l).*2.

(** What a multi-value map holds under a key that received the values
    [vs]: nothing when no value was added. *)
Definition stored (vs : list string) : option (list string) :=
  match vs with [] => None | _ => Some vs end.

(** No key of the map holds an empty list. *)
Definition populated (m : gmap string (list string)) : Prop :=
  ∀ K, m !! K ≠ Some [].


(** ** Further fixtures *)

(** The configuration [New] uses: every field unset. *)
Definition noConfig {W Any T : Type} : @Config W Any T :=
  {| Resolver_ := None; Middleware := None; OnBind := None;
     OnError := None; OnEmptyResponse := None |}.

(** A configuration whose resolver has no processor to offer. *)
Definition noProcessors : @Config unit unit unit :=
  {| Resolver_ := Some (NewConditionalResolver []); Middleware := None;
     OnBind := None; OnError := None; OnEmptyResponse := None |}.

(** [TestNewWithConfig], case [should return an error if the payload is
    invalid]: a static resolver, here over a processor whose decoder
    rejects the payload. *)
Definition staticProxy : @Config unit unit unit :=
  {| Resolver_ := Some (NewStaticResolver (APIGatewayProxyEventProcessor testJSON keyOrder));
     Middleware := None; OnBind := None; OnError := None; OnEmptyResponse := None |}.

(** A handler that writes nothing and returns no error, and one that
    writes a text, as in [TestNew] and [TestNewWithConfig]. *)
Definition silentHandler {W Any T : Type} : @HandlerFunc W Any T :=
  λ _, ret None.

Definition textHandler {W Any T : Type} : @HandlerFunc W Any T :=
  λ c, String_ c Http.StatusOK "body".

(** A configuration whose empty-response policy fails and whose error
    handler reports success without writing anything. *)
Definition failingPolicy : @Config unit unit unit :=
  {| Resolver_ := None; Middleware := None; OnBind := None;
     OnError := Some (λ _ _, ret None);
     OnEmptyResponse := Some (λ _, ret (Some (errors_New "error"))) |}.

(** A handler that binds the request body into [v] and returns what
    [Bind] returns, as the handler of [TestNewWithConfig], case [should
    use the bind callback]. *)
Definition bindHandler {W Any T : Type} (Unmarshal : string → T → T * option error)
    (v : T) : @HandlerFunc W Any T :=
  λ c, r <- Bind Unmarshal c v ;; ret r.2.

(** The response the default error handler writes for an error with the
    given status and message text, starting from an empty header map. *)
Definition errorResponse (X : Externals) (code : Z) (text : string) : Response :=
  {| StatusCode_ := code;
     Headers := {[ "Content-Type" := ["application/json"] ]};
     Body_ := "{" +:+ quote +:+ "message" +:+ quote +:+ ":"
              +:+ Marshal_string X text +:+ "}" |}.

(** A state with a value in the store and a header in the response. *)
Definition busyState : @state unit string :=
  {| request := fromAPIGatewayV2HTTPRequest keyOrder (newV2Request "");
     response := {| StatusCode_ := 0;
                    Headers := {[ "X-Custom-Header" := ["header"] ]};
                    Body_ := "" |};
     store := Some {[ "user" := "alice" ]};
     env := tt |}.

Definition plainContext : @handlerContext unit string unit :=
  {| onBind := λ v, ret (v, None) |}.

(** [strings.Join] *)
Fixpoint Join (elems : list string) (sep : string) : string :=
  match elems with
  | [] => ""
  | [x] => x
  | x :: rest => x +:+ sep +:+ Join rest sep
  end.

(** [strings.IndexByte(s, c) >= 0] *)
Fixpoint ContainsByte (s : string) (c : ascii) : bool :=
  match s with
  | EmptyString => false
  | String x s' => Ascii.eqb x c || ContainsByte s' c
  end.

(** An error behind wrappers that have a message of their own and expose
    no status code, as [fmt.Errorf] with the verb [%w] builds them; the
    first message is the outermost wrapper's. *)
Definition wrappedIn (msgs : list string) (e : error) : error :=
  foldr (λ msg inner, customWrap msg None inner) e msgs.

(** The visiting order opposite to [keyOrder]. *)
Definition reverseKeyOrder : rangeOrder :=
  {| range := λ V m, reverse (map_to_list m);
     range_Permutation := λ V m, reverse_Permutation (map_to_list m) |}.

(** [encoding/json] and gjson on a Gateway-Proxy payload: the path
    requestContext.apiId exists and no other; gjson gives the empty
    string for a path that does not exist. *)
Definition proxyJSON : Externals :=
  {| gjson_Exists := λ _ path, bool_decide (path = "requestContext.apiId");
     gjson_String := λ _ _, "";
     Unmarshal_APIGatewayProxyRequest := λ _, Ok (proxyRequest None);
     Unmarshal_APIGatewayV2HTTPRequest := λ _, Err (errors_New "unexpected end of JSON input");
     Unmarshal_ALBTargetGroupRequest := λ _, Err (errors_New "unexpected end of JSON input");
     Marshal_response := λ _, Ok [];
     Marshal_string := λ s, quote +:+ s +:+ quote;
     StatusText := λ _, "" |}.

(** [strings.ToLower] on a string of ASCII bytes: the upper-case letters
    mapped to lower case, every other byte kept. *)
Definition lowerByte (c : ascii) : ascii :=
  if Bytes.isUpper c then Bytes.lowerOf c else c.

Fixpoint ToLower (s : string) : string :=
  match s with
  | EmptyString => EmptyString
  | String c s' => String (lowerByte c) (ToLower s')
  end.

(** * Properties *)

(** ** Resolvers *)

Lemma NewConditionalResolver_Ok (ps : list Processor) (payload : payload) (p : Processor) :
  NewConditionalResolver ps payload = Ok p →
  ∃ before after,
    ps = before ++ p :: after
    ∧ CanProcess p payload = true
    ∧ Forall (λ q, CanProcess q payload = false) before.
Proof.
  induction ps as [|pp rest IH]; simpl; [discriminate|].
  destruct (CanProcess pp payload) eqn:Hpp.
  - intros [= ->]. exists [], rest. by repeat split.
  - intros (before & after & -> & Hp & Hbefore)%IH.
    exists (pp :: before), after. repeat split; [done|]. by constructor.
Qed.

Lemma NewConditionalResolver_Err (ps : list Processor) (payload : payload) (e : error) :
  NewConditionalResolver ps payload = Err e →
  e = ErrUnsupportedEventType ∧ Forall (λ q, CanProcess q payload = false) ps.
Proof.
  induction ps as [|pp rest IH]; simpl.
  - intros [= <-]. by split.
  - destruct (CanProcess pp payload) eqn:Hpp; [discriminate|].
    intros [-> Hrest]%IH. split; [done|]. by constructor.
Qed.

(** C4. The conditional resolver returns the first processor of its
    sequence that can process the payload, and fails with
    [ErrUnsupportedEventType], returning no processor, when none can; a
    configuration without a resolver behaves as one whose resolver is the
    conditional resolver over the Gateway-Proxy, Gateway-V2 and
    Load-Balancer processors, in that order. *)
Theorem C4_conditional_resolver :
  (∀ (ps : list Processor) (payload : payload),
     match Resolve (NewConditionalResolver ps) payload with
     | Ok p =>
         ∃ before after,
           ps = before ++ p :: after
           ∧ CanProcess p payload = true
           ∧ Forall (λ q, CanProcess q payload = false) before
     | Err e =>
         e = ErrUnsupportedEventType
         ∧ Forall (λ q, CanProcess q payload = false) ps
     end)
  ∧ (∀ (W Any T : Type) (X : Externals) (ro : rangeOrder)
       (middleware : option (@MiddlewareFunc W Any T)) onBind onError onEmptyResponse
       (h : HandlerFunc),
       NewWithConfig X ro
         {| Resolver_ := None; Middleware := middleware; OnBind := onBind;
            OnError := onError; OnEmptyResponse := onEmptyResponse |} h
       = NewWithConfig X ro
           {| Resolver_ :=
                Some (NewConditionalResolver
                        [ APIGatewayProxyEventProcessor X ro;
                          APIGatewayV2HTTPEventProcessor X ro;
                          ALBTargetGroupEventProcessor X ro ]);
              Middleware := middleware; OnBind := onBind;
              OnError := onError; OnEmptyResponse := onEmptyResponse |} h).
Proof.
  split.
  - intros ps payload. unfold Resolve.
    destruct (NewConditionalResolver ps payload) as [p|e] eqn:Hr.
    + by apply NewConditionalResolver_Ok.
    + by apply NewConditionalResolver_Err.
  - reflexivity.
Qed.

(** The two cases of [TestNewDynamicResolver]. *)
Example resolver_no_valid_processor (unmarshal : payload → result Request)
    (marshal : Response → result payload) :
  Resolve (NewConditionalResolver
             [ {| CanProcess := λ _, false; UnmarshalRequest := unmarshal;
                  MarshalResponse := marshal |} ]) []
  = Err ErrUnsupportedEventType.
Proof. reflexivity. Qed.

(** ** Middleware *)

Lemma append_assoc (a b c : string) : (a +:+ b) +:+ c = a +:+ (b +:+ c).
Proof.
  induction a as [|x a IH]; [reflexivity|].
  change (String x ((a +:+ b) +:+ c) = String x (a +:+ (b +:+ c))).
  by rewrite IH.
Qed.

Lemma chainLoop_take {W Any T : Type} (m : list (@MiddlewareFunc W Any T)) (i : nat)
    (n : HandlerFunc) :
  (i ≤ length m)%nat →
  chainLoop m i n = foldr (λ mi next, mi next) n (take i m).
Proof.
  revert n. induction i as [|j IH]; intros n Hi.
  - by destruct m.
  - destruct (lookup_lt_is_Some_2 m j) as [mj Hmj]; [lia|].
    cbn [chainLoop]. unfold MiddlewareFunc in *.
    rewrite Hmj, (take_S_r _ _ _ Hmj), foldr_app.
    cbn [foldr]. apply IH. lia.
Qed.

(** [Chain] nests its arguments, the first one outermost. *)
Lemma Chain_foldr {W Any T : Type} (m : list (@MiddlewareFunc W Any T)) (n : HandlerFunc) :
  Chain m n = foldr (λ mi next, mi next) n m.
Proof.
  unfold Chain. rewrite chainLoop_take by done. by rewrite firstn_all.
Qed.

(** C9. [Chain(M1, M2)] applied to [H] is [M1] wrapped around [M2]
    wrapped around [H]; for middleware with code before and after the
    call of the next handler the run is M1's before-code, M2's
    before-code, [H], M2's after-code, M1's after-code; the run of
    [TestChain] writes 12h21. *)
Theorem C9_chain_order :
  (∀ (W Any T : Type) (M1 M2 : @MiddlewareFunc W Any T) (H : HandlerFunc),
     Chain [M1; M2] H = M1 (M2 H))
  ∧ (∀ (W Any T : Type) (before1 after1 before2 after2 : @M W Any unit)
       (H : @HandlerFunc W Any T) (c : handlerContext) (s : state),
       Chain [around before1 after1; around before2 after2] H c s
       = (_ <- before1 ;; _ <- before2 ;; r <- H c ;;
          _ <- after2 ;; _ <- after1 ;; ret r) s)
  ∧ (∀ (Any T : Type) (c : @handlerContext string Any T) (s : state),
       env (Chain [mw "1"; mw "2"]
              (λ _, _ <- WriteString "h" ;; ret None) c s).1
       = env s +:+ "12h21").
Proof.
  split; [reflexivity|]. split.
  - intros W Any T before1 after1 before2 after2 H c s.
    rewrite Chain_foldr. unfold around, bind, ret. simpl.
    destruct (before1 s) as [s1 []].
    destruct (before2 s1) as [s2 []].
    destruct (H c s2) as [s3 r].
    destruct (after2 s3) as [s4 []].
    by destruct (after1 s4) as [s5 []].
  - intros Any T c s. rewrite Chain_foldr. simpl.
    by rewrite !append_assoc.
Qed.

(** ** Ranging over maps *)

Section Range.
Variable ro : rangeOrder.

Lemma range_elem_of {V : Type} (m : gmap string V) (k : string) (v : V) :
  (k, v) ∈ range ro m ↔ m !! k = Some v.
Proof. by rewrite (range_Permutation ro V m), elem_of_map_to_list. Qed.

Lemma range_NoDup {V : Type} (m : gmap string V) : NoDup (range ro m).*1.
Proof.
  rewrite (range_Permutation ro V m). apply NoDup_fst_map_to_list.
Qed.

Lemma range_keys {V : Type} (m : gmap string V) (k : string) :
  k ∈ (range ro m).*1 ↔ is_Some (m !! k).
Proof.
  rewrite list_elem_of_fmap. split.
  - intros [[k' v] [-> Hkv]]. apply range_elem_of in Hkv. by exists v.
  - intros [v Hv]. exists (k, v). split; [done|]. by apply range_elem_of.
Qed.

Lemma range_empty {V : Type} : range ro (∅ : gmap string V) = [].
Proof.
  apply Permutation_nil_r. by rewrite (range_Permutation ro V ∅), map_to_list_empty.
Qed.

Lemma range_singleton {V : Type} (k : string) (v : V) :
  range ro ({[k := v]} : gmap string V) = [(k, v)].
Proof.
  apply Permutation_singleton_r.
  by rewrite (range_Permutation ro V {[k := v]}), map_to_list_singleton.
Qed.

Lemma entries_nil {V : Type} : entries ro (None : option (gmap string V)) = [].
Proof. apply range_empty. Qed.

End Range.

(** ** Single-value headers *)

Lemma foldl_insert_lookup {V : Type} (f : string → string) (l : list (string * V))
    (m : gmap string string) (k : string) :
  foldl (λ m kv, <[kv.1 := f kv.1]> m) m l !! k
  = if decide (k ∈ l.*1) then Some (f k) else m !! k.
Proof.
  revert m. induction l as [|[k' v] l IH]; intros m; [done|].
  cbn [foldl fmap list_fmap fst]. rewrite IH.
  destruct (decide (k ∈ l.*1)) as [Hin|Hnin].
  - by rewrite decide_True by (by right).
  - destruct (decide (k = k')) as [->|Hne].
    + rewrite lookup_insert_eq. by rewrite decide_True by left.
    + rewrite lookup_insert_ne by done.
      rewrite decide_False; [done|]. by intros [?|?]%elem_of_cons.
Qed.

(** [reduceHeaders] keeps the keys of the header map; under each key it
    stores what [Get] returns for that key. *)
Lemma reduceHeaders_lookup (ro : rangeOrder) (h : gmap string (list string)) (k : string) :
  reduceHeaders ro h !! k = (λ _, Http.Get (Some h) k) <$> h !! k.
Proof.
  unfold reduceHeaders.
  rewrite (foldl_insert_lookup (λ k, Http.Get (Some h) k)), lookup_empty.
  destruct (decide (k ∈ (range ro h).*1)) as [Hin|Hnin].
  - apply range_keys in Hin as [vs ->]. done.
  - destruct (h !! k) as [vs|] eqn:Hk; [|done].
    exfalso. apply Hnin, range_keys. by exists vs.
Qed.

(** ** Status errors *)

(** [StatusCode] is the code of the first error of the cause chain that
    has one, and 500 when none has. *)
Lemma StatusCode_chain (e : error) :
  StatusCode e = default Http.StatusInternalServerError (head (omap Code (chain e))).
Proof.
  unfold StatusCode.
  induction e as [s|code err IH|msg code|msg code cause IH]; simpl; try done.
  - by destruct code.
  - by destruct code.
Qed.

Lemma StatusCode_WrapError (code : Z) (err : error) : StatusCode (WrapError code err) = code.
Proof. reflexivity. Qed.

(** ** The handler context *)

(** C8. [Bind] on an empty body returns no error and changes neither the
    target nor the state, whatever the bind callback is; on a body that
    does not decode it returns a status error with code 400; on a body
    that decodes it is the bind callback applied, once, to the decoded
    target, so the callback's error is what the caller gets. *)
Theorem C8_bind {W Any T : Type} (Unmarshal : string → T → T * option error)
    (c : @handlerContext W Any T) (v : T) (s : state) :
  (Body (request s) = "" → Bind Unmarshal c v s = (s, (v, None)))
  ∧ (∀ v' err,
       Body (request s) ≠ "" →
       Unmarshal (Body (request s)) v = (v', Some err) →
       Bind Unmarshal c v s = (s, (v', Some (WrapError Http.StatusBadRequest err)))
       ∧ StatusCode (WrapError Http.StatusBadRequest err) = 400)
  ∧ (∀ v',
       Body (request s) ≠ "" →
       Unmarshal (Body (request s)) v = (v', None) →
       Bind Unmarshal c v s = onBind c v' s).
Proof.
  unfold Bind. split; [|split].
  - by intros ->.
  - intros v' err Hbody Hv. rewrite decide_False by done. by rewrite Hv.
  - intros v' Hbody Hv. rewrite decide_False by done. by rewrite Hv.
Qed.

Lemma C8_bind_witness :
  Bind testUnmarshal countingContext "target" (stateWithBody "")
    = (stateWithBody "", ("target", None))
  ∧ (Bind testUnmarshal countingContext "target" (stateWithBody "{")
       = (stateWithBody "{",
          ("target",
           Some (WrapError Http.StatusBadRequest
                   (errors_New "unexpected end of JSON input"))))
     ∧ StatusCode (WrapError Http.StatusBadRequest
                     (errors_New "unexpected end of JSON input")) = 400)
  ∧ Bind testUnmarshal countingContext "target" (stateWithBody "42")
    = onBind countingContext "42" (stateWithBody "42").
Proof.
  destruct (C8_bind testUnmarshal countingContext "target" (stateWithBody ""))
    as (Hempty & _ & _).
  destruct (C8_bind testUnmarshal countingContext "target" (stateWithBody "{"))
    as (_ & Hinvalid & _).
  destruct (C8_bind testUnmarshal countingContext "target" (stateWithBody "42"))
    as (_ & _ & Hvalid).
  split; [apply Hempty; reflexivity|].
  split; [apply Hinvalid; [discriminate|reflexivity]|].
  apply Hvalid; [discriminate|reflexivity].
Defined.

(** The three cases of [TestContext_Bind], with a callback that counts
    its calls: none, none, one. *)
Example Bind_callback_calls :
  env (Bind testUnmarshal countingContext "target" (stateWithBody "")).1 = 0%nat
  ∧ env (Bind testUnmarshal countingContext "target" (stateWithBody "{")).1 = 0%nat
  ∧ env (Bind testUnmarshal countingContext "target" (stateWithBody "42")).1 = 1%nat
  ∧ (Bind testUnmarshal countingContext "target" (stateWithBody "42")).2
    = ("42", Some (errors_New "invalid")).
Proof. by vm_compute. Qed.

(** ** The default error handler *)

Lemma reduceHeaders_singleton (ro : rangeOrder) (k v : string) (vs : list string) :
  Textproto.CanonicalMIMEHeaderKey k = k →
  reduceHeaders ro {[ k := v :: vs ]} = {[ k := v ]}.
Proof.
  intros Hk. unfold reduceHeaders. rewrite range_singleton. simpl.
  unfold Http.Get, index. simpl. rewrite Hk, lookup_singleton_eq.
  by rewrite insert_empty.
Qed.

(** C5. The default error handler sets the status to [StatusCode e], the
    body to the JSON object with the one field message holding the text
    of [e], and the content type to application/json, and returns no
    error; [StatusCode e] is the first code found along the cause chain
    of [e], 500 when there is none; under the default configuration a
    handler returning a status error with code 409 and message error
    makes the invocation return the encoding of the response with status
    409 and body {"message":"error"}, which for the Gateway-V2 processor is
    the wire response shown. *)
Theorem C5_default_error_handler :
  (∀ (W Any T : Type) (X : Externals) (c : @handlerContext W Any T)
     (e : error) (s : state),
     defaultErrorHandler X c e s
     = (setResponse
          {| StatusCode_ := StatusCode e;
             Headers := <["Content-Type" := ["application/json"]]> (Headers (response s));
             Body_ := "{" +:+ quote +:+ "message" +:+ quote +:+ ":"
                      +:+ Marshal_string X (Error e) +:+ "}" |} s,
        None))
  ∧ (∀ e : error,
       StatusCode e
       = default Http.StatusInternalServerError (head (omap Code (chain e))))
  ∧ (∀ (W Any T : Type) (X : Externals) (ro : rangeOrder) (payload : payload) (w : W),
       Marshal_string X "error" = quote +:+ "error" +:+ quote →
       returned (New (Any:=Any) (T:=T) X ro conflictHandler payload w)
       = match Resolve (defaultResolver X ro) payload with
         | Err err => Err err
         | Ok p =>
             match UnmarshalRequest p payload with
             | Err err => Err err
             | Ok _ => MarshalResponse p conflictResponse
             end
         end)
  ∧ (∀ (X : Externals) (ro : rangeOrder),
       MarshalResponse (APIGatewayV2HTTPEventProcessor X ro) conflictResponse
       = Marshal_response X
           (V2Response
              {| v2r_StatusCode := 409;
                 v2r_Headers := {[ "Content-Type" := "application/json" ]};
                 v2r_MultiValueHeaders := {[ "Content-Type" := ["application/json"] ]};
                 v2r_Body := messageBody "error";
                 v2r_IsBase64Encoded := false;
                 v2r_Cookies := [] |})).
Proof.
  split; [reflexivity|]. split; [apply StatusCode_chain|]. split.
  - intros W Any T X ro payload w Hq.
    unfold New, NewWithConfig, resolverOf. cbn [Resolver_ default].
    destruct (Resolve (defaultResolver X ro) payload) as [p|err]; [|done].
    destruct (UnmarshalRequest p payload) as [req|err]; [|done].
    cbn. unfold conflictResponse, messageBody.
    by rewrite Hq, insert_empty, !append_assoc.
  - intros X ro. cbn. unfold toAPIGatewayV2HTTPResponse.
    cbn [Headers StatusCode_ Body_ conflictResponse].
    by rewrite reduceHeaders_singleton.
Qed.

Lemma C5_default_error_handler_witness :
  returned (New (Any:=unit) (T:=unit) testJSON keyOrder conflictHandler [] tt)
  = MarshalResponse (APIGatewayV2HTTPEventProcessor testJSON keyOrder) conflictResponse.
Proof.
  destruct C5_default_error_handler as (_ & _ & Hinvoke & _).
  by rewrite (Hinvoke unit unit unit testJSON keyOrder [] tt eq_refl).
Defined.

(** ** The invocation pipeline *)

(** An invocation whose handler fails and whose error handler reports
    success goes on to the Default-Response Check, and, the status being
    still 0, to the empty-response policy. *)
Lemma C2_counterexample :
  ¬ (∀ (cfg : @Config unit unit unit) (h : HandlerFunc) (payload : payload) (w : unit)
       (p : Processor) (req : Request) (s : state) (e : error),
       Resolve (resolverOf testJSON keyOrder cfg) payload = Ok p →
       UnmarshalRequest p payload = Ok req →
       handlerOf cfg h (newContext cfg) (newState req w) = (s, Some e) →
       DefaultResponseCheck ∉ stages (NewWithConfig testJSON keyOrder cfg h payload w)).
Proof.
  intros Hclaim.
  apply (Hclaim swallowErrors failingHandler [] tt
           (APIGatewayV2HTTPEventProcessor testJSON keyOrder)
           (fromAPIGatewayV2HTTPRequest keyOrder (newV2Request ""))
           (newState (fromAPIGatewayV2HTTPRequest keyOrder (newV2Request "")) tt)
           (errors_New "error")); [reflexivity..|].
  vm_compute. do 4 right. left.
Qed.

Example swallowed_error_stages :
  stages (NewWithConfig testJSON keyOrder swallowErrors failingHandler [] tt)
  = [Resolving; Decoding; Executing; ErrorRecovery;
     DefaultResponseCheck; EmptyResponsePolicy; Encoding].
Proof. reflexivity. Qed.

(** Under the default configuration the same happens when the error
    carries the status code 0: the default error handler writes 0, and
    the empty-response policy then sets the status to 200. *)
Example zero_status_error_stages :
  stages (New testJSON keyOrder zeroStatusHandler [] tt)
  = [Resolving; Decoding; Executing; ErrorRecovery;
     DefaultResponseCheck; EmptyResponsePolicy; Encoding].
Proof. reflexivity. Qed.

(** C2, amended. When the wrapped handler returns an error the pipeline
    goes to Error Recovery: the error handler is applied to the error in
    the state the handler left.  If the error handler returns an error
    the invocation ends there with that error, without the
    Default-Response Check.  If it returns no error the Default-Response
    Check comes next, on the state the error handler left, exactly as it
    comes on the handler's state right after an execution without error:
    when the status is still 0 the empty-response policy is applied to
    that state, and what the invocation returns and leaves in the world
    is what the policy (and, should it fail, the error handler applied
    to its error) left; when the status is not 0 the policy is not
    applied and the response is encoded as it is. *)
Theorem C2_recovery_then_check {W Any T : Type} (X : Externals) (ro : rangeOrder)
    (cfg : @Config W Any T) (h : HandlerFunc) (payload : payload) (w : W)
    (p : Processor) (req : Request) (s : state) (r : option error) :
  Resolve (resolverOf X ro cfg) payload = Ok p →
  UnmarshalRequest p payload = Ok req →
  handlerOf cfg h (newContext cfg) (newState req w) = (s, r) →
  let c := newContext cfg in
  let out := NewWithConfig X ro cfg h payload w in
  let check (pre : list Stage) (s1 : state) : Prop :=
    if StatusCode_ (response s1) =? 0 then
      match onEmptyResponseOf cfg c s1 with
      | (s2, None) =>
          stages out = pre ++ [DefaultResponseCheck; EmptyResponsePolicy; Encoding]
          ∧ returned out = MarshalResponse p (response s2)
          ∧ world out = env s2
      | (s2, Some e2) =>
          match onErrorOf X cfg c e2 s2 with
          | (s3, Some e3) =>
              stages out
              = pre ++ [DefaultResponseCheck; EmptyResponsePolicy; ErrorRecovery]
              ∧ returned out = Err e3
              ∧ world out = env s3
          | (s3, None) =>
              stages out
              = pre ++ [DefaultResponseCheck; EmptyResponsePolicy; ErrorRecovery;
                        Encoding]
              ∧ returned out = MarshalResponse p (response s3)
              ∧ world out = env s3
          end
      end
    else
      stages out = pre ++ [DefaultResponseCheck; Encoding]
      ∧ returned out = MarshalResponse p (response s1)
      ∧ world out = env s1 in
  match r with
  | None => check [Resolving; Decoding; Executing] s
  | Some e =>
      match onErrorOf X cfg c e s with
      | (s', Some e') =>
          stages out = [Resolving; Decoding; Executing; ErrorRecovery]
          ∧ returned out = Err e'
          ∧ world out = env s'
      | (s', None) => check [Resolving; Decoding; Executing; ErrorRecovery] s'
      end
  end.
Proof.
  intros Hp Hreq Hh. cbv zeta. unfold NewWithConfig. rewrite Hp, Hreq, Hh.
  destruct r as [e|]; cbn [recover].
  - destruct (onErrorOf X cfg (newContext cfg) e s) as [s' [e'|]]; [done|].
    destruct (StatusCode_ (response s') =? 0); [|done].
    destruct (onEmptyResponseOf cfg (newContext cfg) s') as [s2 [e2|]];
      cbn [recover]; [|done].
    by destruct (onErrorOf X cfg (newContext cfg) e2 s2) as [s3 [e3|]].
  - destruct (StatusCode_ (response s) =? 0); [|done].
    destruct (onEmptyResponseOf cfg (newContext cfg) s) as [s2 [e2|]];
      cbn [recover]; [|done].
    by destruct (onErrorOf X cfg (newContext cfg) e2 s2) as [s3 [e3|]].
Qed.

Lemma C2_recovery_then_check_witness :
  stages (NewWithConfig testJSON keyOrder swallowErrors failingHandler [] tt)
  = [Resolving; Decoding; Executing; ErrorRecovery;
     DefaultResponseCheck; EmptyResponsePolicy; Encoding]
  ∧ returned (NewWithConfig testJSON keyOrder swallowErrors failingHandler [] tt)
    = MarshalResponse (APIGatewayV2HTTPEventProcessor testJSON keyOrder)
        {| StatusCode_ := 200; Headers := ∅; Body_ := "" |}
  ∧ world (NewWithConfig testJSON keyOrder swallowErrors failingHandler [] tt) = tt.
Proof.
  exact (C2_recovery_then_check testJSON keyOrder swallowErrors failingHandler [] tt
           (APIGatewayV2HTTPEventProcessor testJSON keyOrder)
           (fromAPIGatewayV2HTTPRequest keyOrder (newV2Request ""))
           (newState (fromAPIGatewayV2HTTPRequest keyOrder (newV2Request "")) tt)
           (Some (errors_New "error")) eq_refl eq_refl eq_refl).
Defined.

(** The same run for any processor and encoder: the handler failed, the
    error handler wrote nothing, and the response that is encoded has the
    status 200 that the empty-response policy gave it. *)
Lemma swallowed_error_default_status (X : Externals) (ro : rangeOrder)
    (payload : payload) (p : Processor) (req : Request) :
  Resolve (defaultResolver X ro) payload = Ok p →
  UnmarshalRequest p payload = Ok req →
  returned (NewWithConfig X ro swallowErrors failingHandler payload tt)
  = MarshalResponse p {| StatusCode_ := 200; Headers := ∅; Body_ := "" |}.
Proof.
  intros Hp Hreq. unfold NewWithConfig, resolverOf. cbn [Resolver_ swallowErrors default].
  by rewrite Hp, Hreq.
Qed.

(** ** Multi-value maps *)

Lemma Url_Add_addUnder (key value : string) (m : gmap string (list string)) :
  Url.Add key value m = addUnder id key value m.
Proof. reflexivity. Qed.

Lemma Http_Add_addUnder (key value : string) (m : gmap string (list string)) :
  Http.Add key value m = addUnder Textproto.CanonicalMIMEHeaderKey key value m.
Proof. reflexivity. Qed.

Section AddUnder.
Variable f : string → string.

Lemma populated_empty : populated ∅.
Proof. intros K. by rewrite lookup_empty. Qed.

Lemma populated_addUnder (key value : string) (m : gmap string (list string)) :
  populated m → populated (addUnder f key value m).
Proof.
  intros Hm K. unfold addUnder. destruct (decide (f key = K)) as [<-|Hne].
  - rewrite lookup_insert_eq. intros [= Happ]. by destruct (default [] _).
  - by rewrite lookup_insert_ne.
Qed.

Lemma addUnder_values (key value : string) (m : gmap string (list string)) (K : string) :
  default [] (addUnder f key value m !! K)
  = default [] (m !! K) ++ valuesUnder f K [(key, value)].
Proof.
  unfold addUnder, valuesUnder. rewrite filter_cons, filter_nil. simpl.
  case_decide as Hk; [subst K|]; simpl.
  - by rewrite lookup_insert_eq.
  - rewrite lookup_insert_ne by done. by rewrite app_nil_r.
Qed.

Lemma valuesUnder_app (K : string) (l1 l2 : list (string * string)) :
  valuesUnder f K (l1 ++ l2) = valuesUnder f K l1 ++ valuesUnder f K l2.
Proof. unfold valuesUnder. by rewrite filter_app, fmap_app. Qed.

Lemma foldl_addUnder (l : list (string * string)) (m : gmap string (list string)) :
  let m' := foldl (λ acc kv, addUnder f kv.1 kv.2 acc) m l in
  (populated m → populated m')
  ∧ ∀ K, default [] (m' !! K) = default [] (m !! K) ++ valuesUnder f K l.
Proof.
  revert m. induction l as [|[k v] l IH]; intros m; cbn [foldl].
  - split; [done|]. intros K. unfold valuesUnder. by rewrite filter_nil, app_nil_r.
  - destruct (IH (addUnder f k v m)) as [Hpop Hval]. split.
    + intros Hm. by apply Hpop, populated_addUnder.
    + intros K. rewrite Hval, addUnder_values, <- app_assoc.
      by rewrite <- valuesUnder_app.
Qed.

(** A map built by additions holds under each key the values added
    under it, in the order of the additions. *)
Lemma foldl_addUnder_lookup (l : list (string * string)) (K : string) :
  foldl (λ acc kv, addUnder f kv.1 kv.2 acc) ∅ l !! K = stored (valuesUnder f K l).
Proof.
  destruct (foldl_addUnder l ∅) as [Hpop Hval].
  specialize (Hpop populated_empty K). specialize (Hval K).
  rewrite lookup_empty in Hval. simpl in Hval. rewrite <- Hval.
  destruct (foldl _ _ _ !! K) as [[|v vs]|]; done.
Qed.

End AddUnder.

(** The nested loop over multi-value entries is the loop over their
    key/value pairs. *)
Lemma foldl_flat {A : Type} (addFn : string → string → A → A)
    (l : list (string * list string)) (acc : A) :
  foldl (λ acc kvs, foldl (λ acc v, addFn kvs.1 v acc) acc kvs.2) acc l
  = foldl (λ acc kv, addFn kv.1 kv.2 acc) acc (flat l).
Proof.
  revert acc. induction l as [|[k vs] l IH]; intros acc; [done|].
  unfold flat. cbn [foldl mbind list_bind fst snd]. rewrite foldl_app, foldl_fmap.
  apply IH.
Qed.

Lemma mergeMaps_flat {A : Type} (ro : rangeOrder) (sv : option (gmap string string))
    (mv : option (gmap string (list string))) (addFn : string → string → A → A) (acc : A) :
  mergeMaps ro sv mv addFn acc
  = foldl (λ acc kv, addFn kv.1 kv.2 acc) acc (entries ro sv ++ flat (entries ro mv)).
Proof. unfold mergeMaps. by rewrite foldl_flat, foldl_app. Qed.

(** What [mergeMaps] leaves under a key: the single values visited under
    it, then the multiple values visited under it. *)
Lemma mergeMaps_lookup (ro : rangeOrder) (f : string → string)
    (sv : option (gmap string string)) (mv : option (gmap string (list string)))
    (K : string) :
  mergeMaps ro sv mv (addUnder f) ∅ !! K
  = stored (valuesUnder f K (entries ro sv) ++ valuesUnder f K (flat (entries ro mv))).
Proof.
  by rewrite mergeMaps_flat, (foldl_addUnder_lookup f), valuesUnder_app.
Qed.

Lemma filter_none {A : Type} (P : A → Prop) `{∀ x, Decision (P x)} (l : list A) :
  Forall (λ x, ¬ P x) l → filter P l = [].
Proof.
  induction 1 as [|x l Hx Hl IH]; [done|]. by rewrite filter_cons_False.
Qed.

Lemma filter_all {A : Type} (P : A → Prop) `{∀ x, Decision (P x)} (l : list A) :
  Forall P l → filter P l = l.
Proof.
  induction 1 as [|x l Hx Hl IH]; [done|]. rewrite filter_cons_True by done.
  by rewrite IH.
Qed.

(** Keys compared as they are: the entries of a map hold at most one
    entry under a key. *)
Lemma filter_key_absent {V : Type} (K : string) (l : list (string * V)) :
  K ∉ l.*1 → filter (λ kv, kv.1 = K) l = [].
Proof.
  intros HK. apply filter_none, Forall_forall. intros [k v] Hin Heq.
  simpl in Heq. subst k. apply HK, list_elem_of_fmap. by exists (K, v).
Qed.

Lemma filter_key_present {V : Type} (K : string) (v : V) (l : list (string * V)) :
  NoDup l.*1 → (K, v) ∈ l → filter (λ kv, kv.1 = K) l = [(K, v)].
Proof.
  induction l as [|[k' v'] l IH]; [by intros _ ?%elem_of_nil|].
  intros [Hk Hl]%NoDup_cons [[= <- <-]|Hin]%elem_of_cons.
  - rewrite filter_cons_True by done. by rewrite filter_key_absent.
  - rewrite filter_cons_False; [by apply IH|].
    simpl. intros ->. apply Hk, list_elem_of_fmap. by exists (K, v).
Qed.

Lemma filter_key_range {V : Type} (ro : rangeOrder) (m : gmap string V) (K : string) :
  filter (λ kv, kv.1 = K) (range ro m) = (λ v, (K, v)) <$> option_list (m !! K).
Proof.
  destruct (m !! K) as [v|] eqn:Hm; simpl.
  - apply filter_key_present; [apply range_NoDup|]. by apply range_elem_of.
  - apply filter_key_absent. rewrite range_keys, Hm. by intros [? ?].
Qed.

Lemma valuesUnder_range (ro : rangeOrder) (m : gmap string string) (K : string) :
  valuesUnder id K (range ro m) = option_list (m !! K).
Proof.
  unfold valuesUnder. simpl. rewrite filter_key_range. by destruct (m !! K).
Qed.

Lemma valuesUnder_flat (f : string → string) (K : string)
    (l : list (string * list string)) :
  valuesUnder f K (flat l) = concat (filter (λ kvs, f kvs.1 = K) l).*2.
Proof.
  induction l as [|[k vs] l IH]; [done|].
  unfold flat. cbn [mbind list_bind fst snd]. rewrite valuesUnder_app.
  fold (flat l). rewrite IH. unfold valuesUnder at 1.
  destruct (decide (f k = K)) as [Hk|Hk].
  - rewrite filter_cons_True by done. simpl. f_equal.
    rewrite filter_all.
    + rewrite <- list_fmap_compose. apply list_fmap_id.
    + apply Forall_forall. by intros kv (v & -> & _)%list_elem_of_fmap.
  - rewrite filter_cons_False by done.
    rewrite filter_none; [done|].
    apply Forall_forall. by intros kv (v & -> & _)%list_elem_of_fmap.
Qed.

Lemma valuesUnder_flat_range (ro : rangeOrder) (m : gmap string (list string)) (K : string) :
  valuesUnder id K (flat (range ro m)) = default [] (m !! K).
Proof.
  rewrite valuesUnder_flat. simpl. rewrite filter_key_range.
  destruct (m !! K); simpl; [apply app_nil_r|done].
Qed.

(** ** Decoding *)

Lemma default_empty_lookup {V : Type} (m : option (gmap string V)) (K : string) :
  default ∅ m !! K = index m K.
Proof. by destruct m. Qed.

Lemma Split_nonempty (s : string) (sep : ascii) : Strings.Split s sep ≠ [].
Proof.
  destruct s as [|c s]; simpl; [done|].
  destruct (Ascii.eqb c sep); [done|]. by destruct (Strings.Split s sep).
Qed.

Lemma stored_nonempty (vs : list string) : vs ≠ [] → stored vs = Some vs.
Proof. by destruct vs. Qed.

(** The query map of a Load-Balancer request: under each key the single
    value, if any, then the multiple values. *)
Lemma ALB_query_lookup (ro : rangeOrder) (e : ALBTargetGroupRequest) (K : string) :
  index (Query (fromALBTargetGroupRequest ro e)) K
  = stored (option_list (index (alb_QueryStringParameters e) K)
            ++ default [] (index (alb_MultiValueQueryStringParameters e) K)).
Proof.
  cbn [fromALBTargetGroupRequest Query index mbind option_bind].
  change Url.Add with (addUnder id). rewrite mergeMaps_lookup. unfold entries.
  by rewrite valuesUnder_range, valuesUnder_flat_range, !default_empty_lookup.
Qed.

(** The header map of a Load-Balancer request: under each canonical key
    the single values visited under it, then the multiple values. *)
Lemma ALB_header_lookup (ro : rangeOrder) (e : ALBTargetGroupRequest) (K : string) :
  index (Header (fromALBTargetGroupRequest ro e)) K
  = stored (valuesUnder Textproto.CanonicalMIMEHeaderKey K (entries ro (alb_Headers e))
            ++ valuesUnder Textproto.CanonicalMIMEHeaderKey K
                 (flat (entries ro (alb_MultiValueHeaders e)))).
Proof.
  cbn [fromALBTargetGroupRequest Header index mbind option_bind].
  change Http.Add with (addUnder Textproto.CanonicalMIMEHeaderKey).
  by rewrite mergeMaps_lookup.
Qed.

(** The query map of a Gateway-V2 request: under each key the pieces of
    its comma-joined value. *)
Lemma V2_query_lookup (ro : rangeOrder) (e : APIGatewayV2HTTPRequest) (K : string) :
  index (Query (fromAPIGatewayV2HTTPRequest ro e)) K
  = (λ ps, Strings.Split ps ",") <$> index (v2_QueryStringParameters e) K.
Proof.
  cbn [fromAPIGatewayV2HTTPRequest Query index mbind option_bind].
  change Url.Add with (addUnder id).
  set (pieces := λ kps : string * string, (kps.1, Strings.Split kps.2 ",")).
  rewrite <- (foldl_fmap
    (λ acc (kvs : string * list string),
       foldl (λ acc v, addUnder id kvs.1 v acc) acc kvs.2) ∅ _ pieces).
  rewrite foldl_flat, (foldl_addUnder_lookup id), valuesUnder_flat. simpl.
  unfold entries. rewrite <- default_empty_lookup.
  set (m := default ∅ (v2_QueryStringParameters e)).
  assert (Hkeys : (pieces <$> range ro m).*1 = (range ro m).*1).
  { rewrite <- list_fmap_compose. by apply list_fmap_ext. }
  destruct (m !! K) as [ps|] eqn:Hm; simpl.
  - rewrite (filter_key_present K (Strings.Split ps ",")).
    + simpl. rewrite app_nil_r. apply stored_nonempty, Split_nonempty.
    + rewrite Hkeys. apply range_NoDup.
    + apply list_elem_of_fmap. exists (K, ps). split; [done|]. by apply range_elem_of.
  - rewrite filter_key_absent; [done|].
    rewrite Hkeys, range_keys, Hm. by intros [? ?].
Qed.

(** The header map of a Gateway-V2 request: under each canonical key the
    values visited under it. *)
Lemma V2_header_lookup (ro : rangeOrder) (e : APIGatewayV2HTTPRequest) (K : string) :
  index (Header (fromAPIGatewayV2HTTPRequest ro e)) K
  = stored (valuesUnder Textproto.CanonicalMIMEHeaderKey K (entries ro (v2_Headers e))).
Proof.
  cbn [fromAPIGatewayV2HTTPRequest Header index mbind option_bind].
  change Http.Add with (addUnder Textproto.CanonicalMIMEHeaderKey).
  rewrite mergeMaps_lookup, entries_nil. by rewrite app_nil_r.
Qed.

(** C7. The Load-Balancer decoder gives an empty path-parameter map; its
    query and header maps hold under each key the single-value entries
    first and the multi-value entries after them; single-value q1=v1
    without a multi-value map decodes to q1=[v1], and multi-value
    q2=[v2,v3] without a single-value map decodes to q2=[v2,v3]. *)
Theorem C7_alb_merge (ro : rangeOrder) :
  (∀ e : ALBTargetGroupRequest,
     Path (fromALBTargetGroupRequest ro e) = Some ∅
     ∧ (∃ q, Query (fromALBTargetGroupRequest ro e) = Some q
             ∧ ∀ K, q !! K
                    = stored (option_list (index (alb_QueryStringParameters e) K)
                              ++ default [] (index (alb_MultiValueQueryStringParameters e) K)))
     ∧ (∃ h, Header (fromALBTargetGroupRequest ro e) = Some h
             ∧ ∀ K, h !! K
                    = stored (valuesUnder Textproto.CanonicalMIMEHeaderKey K
                                (entries ro (alb_Headers e))
                              ++ valuesUnder Textproto.CanonicalMIMEHeaderKey K
                                   (flat (entries ro (alb_MultiValueHeaders e))))))
  ∧ Query (fromALBTargetGroupRequest ro
             (albRequest (Some {[ "q1" := "v1" ]}) None None None))
    = Some {[ "q1" := ["v1"] ]}
  ∧ Query (fromALBTargetGroupRequest ro
             (albRequest None (Some {[ "q2" := ["v2"; "v3"] ]}) None None))
    = Some {[ "q2" := ["v2"; "v3"] ]}.
Proof.
  split; [|split].
  - intros e. split; [done|]. split.
    + eexists. split; [reflexivity|]. intros K. apply (ALB_query_lookup ro e K).
    + eexists. split; [reflexivity|]. intros K. apply (ALB_header_lookup ro e K).
  - set (e := albRequest _ _ _ _).
    assert (∃ q, Query (fromALBTargetGroupRequest ro e) = Some q) as [q Hq] by by eexists.
    rewrite Hq. f_equal. apply map_eq. intros K.
    pose proof (ALB_query_lookup ro e K) as HK. rewrite Hq in HK. simpl in HK.
    rewrite HK. destruct (decide (K = "q1")) as [->|Hne]; [done|].
    by rewrite !lookup_singleton_ne.
  - set (e := albRequest _ _ _ _).
    assert (∃ q, Query (fromALBTargetGroupRequest ro e) = Some q) as [q Hq] by by eexists.
    rewrite Hq. f_equal. apply map_eq. intros K.
    pose proof (ALB_query_lookup ro e K) as HK. rewrite Hq in HK. simpl in HK.
    rewrite HK. destruct (decide (K = "q2")) as [->|Hne]; [done|].
    by rewrite !lookup_singleton_ne.
Qed.

(** The Load-Balancer cases of [TestALBTargetGroupEventProcessor_UnmarshalRequest]. *)
Example ALB_single_value_payload :
  let req := fromALBTargetGroupRequest keyOrder
               (albRequest (Some (<["q1" := "v1"]> {[ "q2" := "v2" ]})) None
                           (Some (<["x-custom-header1" := "v1"]>
                                    {[ "x-custom-header2" := "v2" ]})) None) in
  Query req = Some (<["q1" := ["v1"]]> {[ "q2" := ["v2"] ]})
  ∧ Header req = Some (<["X-Custom-Header1" := ["v1"]]> {[ "X-Custom-Header2" := ["v2"] ]})
  ∧ Path req = Some ∅.
Proof. by vm_compute. Qed.

(** C10. A Gateway-V2 query-string parameter whose value is the empty
    string decodes to the one-element list holding the empty string,
    which is what splitting the empty string on a comma gives. *)
Theorem C10_v2_empty_query_value (ro : rangeOrder) (e : APIGatewayV2HTTPRequest)
    (k : string) :
  index (v2_QueryStringParameters e) k = Some "" →
  index (Query (fromAPIGatewayV2HTTPRequest ro e)) k = Some [""]
  ∧ Strings.Split "" "," = [""].
Proof.
  intros Hk. split; [|done]. by rewrite V2_query_lookup, Hk.
Qed.

Lemma C10_v2_empty_query_value_witness :
  index (Query (fromAPIGatewayV2HTTPRequest keyOrder
                  (v2Request None (Some {[ "q1" := "" ]})))) "q1" = Some [""]
  ∧ Strings.Split "" "," = [""].
Proof.
  apply (C10_v2_empty_query_value keyOrder (v2Request None (Some {[ "q1" := "" ]})) "q1").
  reflexivity.
Defined.

(** Gateway-V2 query splitting, as in
    [TestAPIGatewayV2HTTPEventProcessor_UnmarshalRequest]. *)
Example V2_query_split (ro : rangeOrder) :
  index (Query (fromAPIGatewayV2HTTPRequest ro
                  (v2Request None (Some (<["q1" := "v1"]> {[ "q2" := "v2,v3" ]}))))) "q2"
  = Some ["v2"; "v3"].
Proof. by rewrite V2_query_lookup. Qed.



(** ** Canonical header keys *)

Lemma canonicalByte_idemp (upper : bool) (c : ascii) :
  Textproto.canonicalByte upper (Textproto.canonicalByte upper c)
  = Textproto.canonicalByte upper c.
Proof.
  destruct upper; destruct c as [[] [] [] [] [] [] [] []]; reflexivity.
Qed.

Lemma canonicalByte_valid (upper : bool) (c : ascii) :
  Textproto.validHeaderFieldByte c = true →
  Textproto.validHeaderFieldByte (Textproto.canonicalByte upper c) = true.
Proof.
  destruct upper; destruct c as [[] [] [] [] [] [] [] []]; vm_compute; done.
Qed.

Lemma canonicalize_idemp (upper : bool) (s : string) :
  Textproto.canonicalize upper (Textproto.canonicalize upper s)
  = Textproto.canonicalize upper s.
Proof.
  revert upper. induction s as [|c s IH]; intros upper; [done|].
  cbn [Textproto.canonicalize]. by rewrite canonicalByte_idemp, IH.
Qed.

Lemma canonicalize_valid (upper : bool) (s : string) :
  Bytes.all Textproto.validHeaderFieldByte s = true →
  Bytes.all Textproto.validHeaderFieldByte (Textproto.canonicalize upper s) = true.
Proof.
  revert upper. induction s as [|c s IH]; intros upper; [done|].
  cbn [Textproto.canonicalize Bytes.all].
  intros [Hc Hs]%andb_prop. by rewrite canonicalByte_valid, IH.
Qed.

(** A canonical key is its own canonical form. *)
Lemma CanonicalMIMEHeaderKey_idemp (s : string) :
  Textproto.CanonicalMIMEHeaderKey (Textproto.CanonicalMIMEHeaderKey s)
  = Textproto.CanonicalMIMEHeaderKey s.
Proof.
  unfold Textproto.CanonicalMIMEHeaderKey.
  destruct (Bytes.all Textproto.validHeaderFieldByte s) eqn:Hs.
  - by rewrite canonicalize_valid, canonicalize_idemp.
  - by rewrite Hs.
Qed.

(** ** Header lookups *)

Lemma valuesUnder_elem_of (f : string → string) (K : string)
    (l : list (string * string)) (v : string) :
  v ∈ valuesUnder f K l ↔ ∃ k, (k, v) ∈ l ∧ f k = K.
Proof.
  unfold valuesUnder. rewrite list_elem_of_fmap. split.
  - intros [[k v'] [-> [Hf Hin]%list_elem_of_filter]]. by exists k.
  - intros [k [Hin Hf]]. exists (k, v). split; [done|]. by apply list_elem_of_filter.
Qed.

Lemma default_stored (vs : list string) : default [] (stored vs) = vs.
Proof. by destruct vs. Qed.

Lemma stored_Some (vs ws : list string) : stored vs = Some ws → vs = ws ∧ ws ≠ [].
Proof. destruct vs; [done|]. by intros [= <-]. Qed.

(** The values a Gateway-V2 request returns for a header name, whatever
    its letter case: those the payload carries under the names with the
    same canonical form. *)
Lemma V2_header_Values (ro : rangeOrder) (e : APIGatewayV2HTTPRequest) (key : string) :
  Http.Values (Header (fromAPIGatewayV2HTTPRequest ro e)) key
  = valuesUnder Textproto.CanonicalMIMEHeaderKey (Textproto.CanonicalMIMEHeaderKey key)
      (entries ro (v2_Headers e)).
Proof. unfold Http.Values. by rewrite V2_header_lookup, default_stored. Qed.

Lemma V2_header_case_insensitive (ro : rangeOrder) (e : APIGatewayV2HTTPRequest)
    (k k' v : string) :
  index (v2_Headers e) k = Some v →
  Textproto.CanonicalMIMEHeaderKey k' = Textproto.CanonicalMIMEHeaderKey k →
  v ∈ Http.Values (Header (fromAPIGatewayV2HTTPRequest ro e)) k'.
Proof.
  intros Hk Hcanon. rewrite V2_header_Values. apply valuesUnder_elem_of.
  exists k. split; [|done]. apply range_elem_of. by rewrite default_empty_lookup.
Qed.

Lemma ALB_header_Values (ro : rangeOrder) (e : ALBTargetGroupRequest) (key : string) :
  Http.Values (Header (fromALBTargetGroupRequest ro e)) key
  = valuesUnder Textproto.CanonicalMIMEHeaderKey (Textproto.CanonicalMIMEHeaderKey key)
      (entries ro (alb_Headers e))
    ++ valuesUnder Textproto.CanonicalMIMEHeaderKey (Textproto.CanonicalMIMEHeaderKey key)
         (flat (entries ro (alb_MultiValueHeaders e))).
Proof. unfold Http.Values. by rewrite ALB_header_lookup, default_stored. Qed.

Lemma valuesUnder_key (f : string → string) (K : string) (l : list (string * string)) :
  valuesUnder f K l ≠ [] → ∃ k, f k = K.
Proof.
  destruct (valuesUnder f K l) as [|v vs] eqn:Hl; [done|]. intros _.
  assert (Hv : v ∈ valuesUnder f K l) by (rewrite Hl; left).
  apply valuesUnder_elem_of in Hv as (k & _ & Hk). by exists k.
Qed.

(** The header maps built by the Gateway-V2 and Load-Balancer decoders
    have canonical keys and no empty list. *)
Lemma V2_header_keys (ro : rangeOrder) (e : APIGatewayV2HTTPRequest)
    (K : string) (vs : list string) :
  index (Header (fromAPIGatewayV2HTTPRequest ro e)) K = Some vs →
  Textproto.CanonicalMIMEHeaderKey K = K ∧ vs ≠ [].
Proof.
  rewrite V2_header_lookup. intros [Hvs Hne]%stored_Some. split; [|done].
  destruct (valuesUnder_key Textproto.CanonicalMIMEHeaderKey K
              (entries ro (v2_Headers e))) as [k <-]; [congruence|].
  apply CanonicalMIMEHeaderKey_idemp.
Qed.

Lemma ALB_header_keys (ro : rangeOrder) (e : ALBTargetGroupRequest)
    (K : string) (vs : list string) :
  index (Header (fromALBTargetGroupRequest ro e)) K = Some vs →
  Textproto.CanonicalMIMEHeaderKey K = K ∧ vs ≠ [].
Proof.
  rewrite ALB_header_lookup, <- valuesUnder_app.
  intros [Hvs Hne]%stored_Some. split; [|done].
  destruct (valuesUnder_key Textproto.CanonicalMIMEHeaderKey K
              (entries ro (alb_Headers e) ++ flat (entries ro (alb_MultiValueHeaders e))))
    as [k <-]; [congruence|].
  apply CanonicalMIMEHeaderKey_idemp.
Qed.

(** C3, on the Gateway-Proxy decoder.  The payload carries v1 under the
    header name x-custom-header1.  The decoded request keeps the key as
    it came, so no lookup finds the value, not even one with the very
    name the payload used; the Gateway-V2 decoder, given the same
    header, answers v1 to every letter case. *)
Theorem C3_proxy_header_lookup :
  let req := fromAPIGatewayProxyRequest
               (proxyRequest (Some {[ "x-custom-header1" := ["v1"] ]})) in
  (index (Header req) "x-custom-header1" = Some ["v1"]
   ∧ Http.Get (Header req) "x-custom-header1" = ""
   ∧ Http.Get (Header req) "X-Custom-Header1" = ""
   ∧ Http.Values (Header req) "X-CUSTOM-HEADER1" = [])
  ∧ ∀ ro : rangeOrder,
      let req2 := fromAPIGatewayV2HTTPRequest ro
                    (v2Request (Some {[ "x-custom-header1" := "v1" ]}) None) in
      Http.Get (Header req2) "x-custom-header1" = "v1"
      ∧ Http.Get (Header req2) "X-Custom-Header1" = "v1"
      ∧ Http.Values (Header req2) "X-CUSTOM-HEADER1" = ["v1"].
Proof.
  split; [by vm_compute|]. intros ro. cbv zeta.
  unfold Http.Get, Http.Values. rewrite !V2_header_lookup. unfold entries.
  cbn [v2Request v2_Headers default]. unfold id. by rewrite range_singleton.
Qed.

(** ** Encoding *)

(** A response with the header x-request-id, written in lower case and
    holding a and b, encodes with the empty string under that key of the
    single-value map. *)
Lemma C6_counterexample :
  ¬ (∀ (X : Externals) (ro : rangeOrder) (r : Response) (k v : string) (vs : list string),
       Headers r !! k = Some (v :: vs) →
       Forall (λ w, wireHeaders w !! k = Some v) (wireResponses X ro r)).
Proof.
  intros Hclaim.
  pose proof (Hclaim testJSON keyOrder lowerCaseResponse "x-request-id" "a" ["b"] eq_refl)
    as Hall.
  apply Forall_cons in Hall as [Hproxy _]. vm_compute in Hproxy. discriminate.
Qed.

Example lowerCaseResponse_single_value :
  wireHeaders (ProxyResponse (toAPIGatewayProxyResponse keyOrder lowerCaseResponse))
  = {[ "x-request-id" := "" ]}.
Proof. by vm_compute. Qed.

Lemma wireResponses_headers (X : Externals) (ro : rangeOrder) (r : Response) :
  Forall (λ w, wireMultiValueHeaders w = Headers r
               ∧ wireHeaders w = reduceHeaders ro (Headers r))
    (wireResponses X ro r).
Proof. by repeat constructor. Qed.

Lemma reduceHeaders_canonical (ro : rangeOrder) (h : gmap string (list string))
    (k : string) (vs : list string) :
  h !! k = Some vs →
  Textproto.CanonicalMIMEHeaderKey k = k →
  reduceHeaders ro h !! k = Some (default "" (head vs)).
Proof.
  intros Hk Hcanon. rewrite reduceHeaders_lookup, Hk. simpl.
  unfold Http.Get, index. simpl. rewrite Hcanon, Hk. by destruct vs.
Qed.

(** C6, amended. Each processor emits the response's header map as the
    multi-value map, and a single-value map with the same keys; under a
    key in canonical form the single-value map holds the first value of
    the key's list, the empty string if the list is empty.  The header
    maps decoded by the Gateway-V2 and Load-Balancer processors have
    canonical keys, so a response carrying them re-encodes every header
    with its full list and its first value; a Load-Balancer header with
    the two values v2 and v3 re-encodes to that list and to v2. *)
Theorem C6_single_value_headers (X : Externals) (ro : rangeOrder) :
  (∀ (r : Response),
     Forall (λ w,
       wireMultiValueHeaders w = Headers r
       ∧ (∀ k, wireHeaders w !! k = None ↔ Headers r !! k = None)
       ∧ (∀ k vs,
            Headers r !! k = Some vs →
            Textproto.CanonicalMIMEHeaderKey k = k →
            wireHeaders w !! k = Some (default "" (head vs))))
       (wireResponses X ro r))
  ∧ (∀ (req : Request) (k : string) (vs : list string),
       (∃ e, req = fromAPIGatewayV2HTTPRequest ro e)
       ∨ (∃ e, req = fromALBTargetGroupRequest ro e) →
       index (Header req) k = Some vs →
       Forall (λ w,
         wireMultiValueHeaders w !! k = Some vs
         ∧ ∃ v, head vs = Some v ∧ wireHeaders w !! k = Some v)
         (wireResponses X ro (echoHeaders req)))
  ∧ Forall (λ w,
      wireMultiValueHeaders w = {[ "X-Custom-Header2" := ["v2"; "v3"] ]}
      ∧ wireHeaders w = {[ "X-Custom-Header2" := "v2" ]})
      (wireResponses X ro
         (echoHeaders
            (fromALBTargetGroupRequest ro
               (albRequest None None None
                  (Some {[ "x-custom-header2" := ["v2"; "v3"] ]}))))).
Proof.
  split; [|split].
  - intros r. eapply Forall_impl; [apply wireResponses_headers|].
    intros w [-> ->]. split; [done|]. split.
    + intros k. rewrite reduceHeaders_lookup. by destruct (Headers r !! k).
    + intros k vs. apply reduceHeaders_canonical.
  - intros req k vs Hreq Hk.
    assert (Hkeys : Textproto.CanonicalMIMEHeaderKey k = k ∧ vs ≠ []).
    { destruct Hreq as [[e ->]|[e ->]].
      - by apply (V2_header_keys ro e).
      - by apply (ALB_header_keys ro e). }
    destruct Hkeys as [Hcanon Hne].
    assert (Hh : Headers (echoHeaders req) !! k = Some vs).
    { unfold echoHeaders. cbn [Headers]. by rewrite default_empty_lookup. }
    eapply Forall_impl; [apply wireResponses_headers|].
    intros w [-> ->]. split; [done|].
    destruct vs as [|v vs]; [done|]. exists v. split; [done|].
    by rewrite (reduceHeaders_canonical ro _ k (v :: vs)).
  - eapply Forall_impl; [apply wireResponses_headers|].
    intros w [-> ->].
    assert (Hh : Headers (echoHeaders (fromALBTargetGroupRequest ro
                   (albRequest None None None
                      (Some {[ "x-custom-header2" := ["v2"; "v3"] ]}))))
                 = {[ "X-Custom-Header2" := ["v2"; "v3"] ]}).
    { unfold echoHeaders. cbn [Headers fromALBTargetGroupRequest Header default].
      unfold mergeMaps, entries.
      cbn [albRequest alb_Headers alb_MultiValueHeaders default]. unfold id.
      by rewrite range_singleton, range_empty. }
    rewrite Hh. split; [done|]. by apply reduceHeaders_singleton.
Qed.

Lemma C6_single_value_headers_witness :
  Forall (λ w,
    wireMultiValueHeaders w !! "X-Custom-Header1" = Some ["v1"]
    ∧ ∃ v, head ["v1"] = Some v ∧ wireHeaders w !! "X-Custom-Header1" = Some v)
    (wireResponses testJSON keyOrder
       (echoHeaders
          (fromAPIGatewayV2HTTPRequest keyOrder
             (v2Request (Some {[ "x-custom-header1" := "v1" ]}) None)))).
Proof.
  destruct (C6_single_value_headers testJSON keyOrder) as (_ & Hround & _).
  apply Hround; [|reflexivity]. left. by eexists.
Defined.

(** * Further properties *)

(** ** Aborted invocations *)

(** X1. When the resolver returns an error the invocation returns that
    error and nothing else happens: the handler, the middleware and the
    callbacks are not run, so the world is as it was. *)
Theorem X1_resolve_error_aborts {W Any T : Type} (X : Externals) (ro : rangeOrder)
    (cfg : @Config W Any T) (h : HandlerFunc) (payload : payload) (w : W) (err : error) :
  Resolve (resolverOf X ro cfg) payload = Err err →
  returned (NewWithConfig X ro cfg h payload w) = Err err
  ∧ world (NewWithConfig X ro cfg h payload w) = w
  ∧ stages (NewWithConfig X ro cfg h payload w) = [Resolving].
Proof. intros Hr. unfold NewWithConfig. by rewrite Hr. Qed.

Lemma X1_resolve_error_aborts_witness :
  returned (NewWithConfig testJSON keyOrder noProcessors failingHandler [] tt)
  = Err ErrUnsupportedEventType
  ∧ world (NewWithConfig testJSON keyOrder noProcessors failingHandler [] tt) = tt
  ∧ stages (NewWithConfig testJSON keyOrder noProcessors failingHandler [] tt) = [Resolving].
Proof.
  apply (X1_resolve_error_aborts testJSON keyOrder noProcessors failingHandler [] tt).
  reflexivity.
Defined.

(** X2. When the resolved processor cannot decode the payload the
    invocation returns the decoder's error; the handler, the middleware
    and the callbacks are not run. *)
Theorem X2_decode_error_aborts {W Any T : Type} (X : Externals) (ro : rangeOrder)
    (cfg : @Config W Any T) (h : HandlerFunc) (payload : payload) (w : W)
    (p : Processor) (err : error) :
  Resolve (resolverOf X ro cfg) payload = Ok p →
  UnmarshalRequest p payload = Err err →
  returned (NewWithConfig X ro cfg h payload w) = Err err
  ∧ world (NewWithConfig X ro cfg h payload w) = w
  ∧ stages (NewWithConfig X ro cfg h payload w) = [Resolving; Decoding].
Proof. intros Hr Hd. unfold NewWithConfig. by rewrite Hr, Hd. Qed.

Lemma X2_decode_error_aborts_witness :
  returned (NewWithConfig testJSON keyOrder staticProxy failingHandler [] tt)
  = Err (errors_New "unexpected end of JSON input")
  ∧ world (NewWithConfig testJSON keyOrder staticProxy failingHandler [] tt) = tt
  ∧ stages (NewWithConfig testJSON keyOrder staticProxy failingHandler [] tt)
    = [Resolving; Decoding].
Proof.
  apply (X2_decode_error_aborts testJSON keyOrder staticProxy failingHandler [] tt
           (APIGatewayProxyEventProcessor testJSON keyOrder)); reflexivity.
Defined.

(** ** Completed invocations *)

(** X3. With the default error handler and the default empty-response
    policy, an invocation whose payload resolves and decodes always
    reaches the encoder, whatever the handler and the middleware do or
    return: no error of theirs is returned to the caller.  What the
    invocation returns is what the processor's encoder returns for a
    response whose status is not 0, so the only error it can return is
    the encoder's. *)
Theorem X3_default_handlers_reach_the_encoder {W Any T : Type} (X : Externals)
    (ro : rangeOrder) (cfg : @Config W Any T) (h : HandlerFunc) (payload : payload)
    (w : W) (p : Processor) (req : Request) :
  OnError cfg = None →
  OnEmptyResponse cfg = None →
  Resolve (resolverOf X ro cfg) payload = Ok p →
  UnmarshalRequest p payload = Ok req →
  ∃ r : Response,
    returned (NewWithConfig X ro cfg h payload w) = MarshalResponse p r
    ∧ StatusCode_ r ≠ 0
    ∧ last (stages (NewWithConfig X ro cfg h payload w)) = Some Encoding
    ∧ ∀ err, returned (NewWithConfig X ro cfg h payload w) = Err err →
             MarshalResponse p r = Err err.
Proof.
  intros Herr Hempty Hr Hd.
  cut (∃ r : Response,
         returned (NewWithConfig X ro cfg h payload w) = MarshalResponse p r
         ∧ StatusCode_ r ≠ 0
         ∧ last (stages (NewWithConfig X ro cfg h payload w)) = Some Encoding).
  { intros (r & Hret & Hcode & Hlast). exists r. repeat split; try done.
    intros err. by rewrite Hret. }
  unfold NewWithConfig, onErrorOf, onEmptyResponseOf.
  rewrite Hr, Hd, Herr, Hempty. cbn [default].
  assert (Hcheck : ∀ (s : @state W Any) (pre : list Stage),
    ∃ r,
      returned
        (let '(s2, t2, abort) :=
           if StatusCode_ (response s) =? 0
           then let '(s2, t, abort) :=
                  recover (defaultErrorHandler X) (newContext cfg)
                    (NoContent (newContext cfg) Http.StatusOK s) in
                (s2, EmptyResponsePolicy :: t, abort)
           else (s, [], None) in
         let pre' := pre ++ [DefaultResponseCheck] ++ t2 in
         match abort with
         | Some err => {| stages := pre'; world := env s2; returned := Err err |}
         | None => {| stages := pre' ++ [Encoding]; world := env s2;
                      returned := MarshalResponse p (response s2) |}
         end)
      = MarshalResponse p r
      ∧ StatusCode_ r ≠ 0
      ∧ last (stages
        (let '(s2, t2, abort) :=
           if StatusCode_ (response s) =? 0
           then let '(s2, t, abort) :=
                  recover (defaultErrorHandler X) (newContext cfg)
                    (NoContent (newContext cfg) Http.StatusOK s) in
                (s2, EmptyResponsePolicy :: t, abort)
           else (s, [], None) in
         let pre' := pre ++ [DefaultResponseCheck] ++ t2 in
         match abort with
         | Some err => {| stages := pre'; world := env s2; returned := Err err |}
         | None => {| stages := pre' ++ [Encoding]; world := env s2;
                      returned := MarshalResponse p (response s2) |}
         end)) = Some Encoding).
  { intros s pre. destruct (StatusCode_ (response s) =? 0) eqn:Hz.
    - cbn [NoContent recover stages returned]. eexists.
      split; [reflexivity|]. split; [done|]. apply last_snoc.
    - apply Z.eqb_neq in Hz. cbn [stages returned]. eexists.
      split; [reflexivity|]. split; [done|]. apply last_snoc. }
  destruct (handlerOf cfg h (newContext cfg) (newState req w)) as [s [e|]].
  - cbn [recover]. unfold defaultErrorHandler, JSON, marshalMessage.
    cbv beta iota. apply Hcheck.
  - cbn [recover]. apply Hcheck.
Qed.

Lemma X3_default_handlers_reach_the_encoder_witness :
  ∃ r : Response,
    returned (NewWithConfig testJSON keyOrder noConfig zeroStatusHandler [] tt)
    = MarshalResponse (APIGatewayV2HTTPEventProcessor testJSON keyOrder) r
    ∧ StatusCode_ r ≠ 0
    ∧ last (stages (NewWithConfig testJSON keyOrder noConfig zeroStatusHandler [] tt))
      = Some Encoding
    ∧ ∀ err,
        returned (NewWithConfig testJSON keyOrder noConfig zeroStatusHandler [] tt)
        = Err err →
        MarshalResponse (APIGatewayV2HTTPEventProcessor testJSON keyOrder) r = Err err.
Proof.
  apply (X3_default_handlers_reach_the_encoder testJSON keyOrder noConfig
           zeroStatusHandler [] tt (APIGatewayV2HTTPEventProcessor testJSON keyOrder)
           (fromAPIGatewayV2HTTPRequest keyOrder (newV2Request ""))); reflexivity.
Defined.

(** X4. With the default empty-response policy, when the wrapped handler
    returns no error and leaves the status at 0, the invocation returns
    the encoding of the response as the handler left it but with status
    200: headers and body written without a status are kept. *)
Theorem X4_default_response {W Any T : Type} (X : Externals) (ro : rangeOrder)
    (cfg : @Config W Any T) (h : HandlerFunc) (payload : payload) (w : W)
    (p : Processor) (req : Request) (s : state) :
  OnEmptyResponse cfg = None →
  Resolve (resolverOf X ro cfg) payload = Ok p →
  UnmarshalRequest p payload = Ok req →
  handlerOf cfg h (newContext cfg) (newState req w) = (s, None) →
  StatusCode_ (response s) = 0 →
  returned (NewWithConfig X ro cfg h payload w)
  = MarshalResponse p {| StatusCode_ := 200;
                         Headers := Headers (response s);
                         Body_ := Body_ (response s) |}
  ∧ world (NewWithConfig X ro cfg h payload w) = env s.
Proof.
  intros Hempty Hr Hd Hh Hz. unfold NewWithConfig, onEmptyResponseOf.
  rewrite Hr, Hd, Hh, Hempty. cbn [recover default]. by rewrite Hz.
Qed.

Lemma X4_default_response_witness :
  returned (NewWithConfig testJSON keyOrder (@noConfig unit unit unit) silentHandler [] tt)
  = MarshalResponse (APIGatewayV2HTTPEventProcessor testJSON keyOrder)
      {| StatusCode_ := 200; Headers := ∅; Body_ := "" |}
  ∧ world (NewWithConfig testJSON keyOrder (@noConfig unit unit unit) silentHandler [] tt)
    = tt.
Proof.
  apply (X4_default_response testJSON keyOrder (@noConfig unit unit unit)
           silentHandler [] tt (APIGatewayV2HTTPEventProcessor testJSON keyOrder)
           (fromAPIGatewayV2HTTPRequest keyOrder (newV2Request ""))
           (newState (fromAPIGatewayV2HTTPRequest keyOrder (newV2Request "")) tt));
    reflexivity.
Defined.

(** X5. When the wrapped handler returns no error and has written a
    status other than 0, the invocation returns the encoding of the
    response exactly as the handler left it; neither the empty-response
    policy nor the error handler is run, whatever they are. *)
Theorem X5_written_response_is_returned {W Any T : Type} (X : Externals)
    (ro : rangeOrder) (cfg : @Config W Any T) (h : HandlerFunc) (payload : payload)
    (w : W) (p : Processor) (req : Request) (s : state) :
  Resolve (resolverOf X ro cfg) payload = Ok p →
  UnmarshalRequest p payload = Ok req →
  handlerOf cfg h (newContext cfg) (newState req w) = (s, None) →
  StatusCode_ (response s) ≠ 0 →
  returned (NewWithConfig X ro cfg h payload w) = MarshalResponse p (response s)
  ∧ world (NewWithConfig X ro cfg h payload w) = env s
  ∧ stages (NewWithConfig X ro cfg h payload w)
    = [Resolving; Decoding; Executing; DefaultResponseCheck; Encoding].
Proof.
  intros Hr Hd Hh Hz. unfold NewWithConfig.
  rewrite Hr, Hd, Hh. cbn [recover]. apply Z.eqb_neq in Hz. by rewrite Hz.
Qed.

Lemma X5_written_response_is_returned_witness :
  returned (NewWithConfig testJSON keyOrder failingPolicy textHandler [] tt)
  = MarshalResponse (APIGatewayV2HTTPEventProcessor testJSON keyOrder)
      {| StatusCode_ := 200;
         Headers := {[ "Content-Type" := ["text/plain"] ]};
         Body_ := "body" |}
  ∧ world (NewWithConfig testJSON keyOrder failingPolicy textHandler [] tt) = tt
  ∧ stages (NewWithConfig testJSON keyOrder failingPolicy textHandler [] tt)
    = [Resolving; Decoding; Executing; DefaultResponseCheck; Encoding].
Proof.
  apply (X5_written_response_is_returned testJSON keyOrder failingPolicy textHandler
           [] tt (APIGatewayV2HTTPEventProcessor testJSON keyOrder)
           (fromAPIGatewayV2HTTPRequest keyOrder (newV2Request ""))
           (textHandler (newContext failingPolicy)
              (newState (fromAPIGatewayV2HTTPRequest keyOrder (newV2Request "")) tt)).1);
    [reflexivity..|discriminate].
Defined.

(** X6. When the empty-response policy returns an error, the error
    handler is run on it; if that returns an error too the invocation
    aborts with it, and otherwise the response is encoded as the error
    handler left it.  The status is not looked at again: an error
    handler that writes none lets the response go out with status 0. *)
Theorem X6_empty_response_policy_error {W Any T : Type} (X : Externals)
    (ro : rangeOrder) (cfg : @Config W Any T) (h : HandlerFunc) (payload : payload)
    (w : W) (p : Processor) (req : Request) (s s1 s2 : state) (e : error)
    (r : option error) :
  Resolve (resolverOf X ro cfg) payload = Ok p →
  UnmarshalRequest p payload = Ok req →
  handlerOf cfg h (newContext cfg) (newState req w) = (s, None) →
  StatusCode_ (response s) = 0 →
  onEmptyResponseOf cfg (newContext cfg) s = (s1, Some e) →
  onErrorOf X cfg (newContext cfg) e s1 = (s2, r) →
  returned (NewWithConfig X ro cfg h payload w)
  = match r with
    | Some e' => Err e'
    | None => MarshalResponse p (response s2)
    end
  ∧ world (NewWithConfig X ro cfg h payload w) = env s2.
Proof.
  intros Hr Hd Hh Hz Hpolicy Herr. unfold NewWithConfig.
  rewrite Hr, Hd, Hh. cbn [recover]. rewrite Hz. cbn [Z.eqb].
  rewrite Hpolicy. cbn [recover]. rewrite Herr. by destruct r.
Qed.

Lemma X6_empty_response_policy_error_witness :
  returned (NewWithConfig testJSON keyOrder failingPolicy silentHandler [] tt)
  = MarshalResponse (APIGatewayV2HTTPEventProcessor testJSON keyOrder)
      {| StatusCode_ := 0; Headers := ∅; Body_ := "" |}
  ∧ world (NewWithConfig testJSON keyOrder failingPolicy silentHandler [] tt) = tt.
Proof.
  apply (X6_empty_response_policy_error testJSON keyOrder failingPolicy silentHandler
           [] tt (APIGatewayV2HTTPEventProcessor testJSON keyOrder)
           (fromAPIGatewayV2HTTPRequest keyOrder (newV2Request ""))
           (newState (fromAPIGatewayV2HTTPRequest keyOrder (newV2Request "")) tt)
           (newState (fromAPIGatewayV2HTTPRequest keyOrder (newV2Request "")) tt)
           (newState (fromAPIGatewayV2HTTPRequest keyOrder (newV2Request "")) tt)
           (errors_New "error") None); reflexivity.
Defined.

(** ** Middleware chains *)

(** X7. Chaining concatenated lists of middleware is chaining the first
    list around the chain of the second; the empty chain leaves the
    handler as it is; and a configuration whose middleware is a chain
    behaves as one without middleware whose handler is already wrapped,
    first middleware outermost. *)
Theorem X7_chain_composes {W Any T : Type} (ms1 ms2 : list (@MiddlewareFunc W Any T))
    (h : HandlerFunc) :
  Chain (ms1 ++ ms2) h = Chain ms1 (Chain ms2 h)
  ∧ Chain [] h = h
  ∧ ∀ (X : Externals) (ro : rangeOrder) resolver onBind onError onEmptyResponse,
      NewWithConfig X ro
        {| Resolver_ := resolver; Middleware := Some (Chain ms1); OnBind := onBind;
           OnError := onError; OnEmptyResponse := onEmptyResponse |} h
      = NewWithConfig X ro
          {| Resolver_ := resolver; Middleware := None; OnBind := onBind;
             OnError := onError; OnEmptyResponse := onEmptyResponse |}
          (foldr (λ m next, m next) h ms1).
Proof.
  split; [|split].
  - by rewrite !Chain_foldr, foldr_app.
  - done.
  - intros X ro resolver onBind onError onEmptyResponse.
    unfold NewWithConfig, handlerOf. cbn [Middleware]. by rewrite Chain_foldr.
Qed.

(** ** The context store *)

(** X8. [Set] followed by [Get] of the same key gives the value set;
    other keys, the request, the response and the world are unaffected;
    [Get] changes nothing; and before any [Set], while the store is
    still nil, [Get] finds nothing under any key. *)
Theorem X8_store_set_get {W Any T : Type} (c : @handlerContext W Any T) (s : state)
    (key : string) (v : Any) :
  (Get c key (Set_ c key v s).1).2 = Some v
  ∧ (∀ key', key' ≠ key → (Get c key' (Set_ c key v s).1).2 = (Get c key' s).2)
  ∧ request (Set_ c key v s).1 = request s
  ∧ response (Set_ c key v s).1 = response s
  ∧ env (Set_ c key v s).1 = env s
  ∧ (Get c key s).1 = s
  ∧ ∀ (req : Request) (w : W) (key' : string), (Get c key' (newState req w)).2 = None.
Proof.
  unfold Get, Set_, index. cbn. split; [|split; [|done]].
  - destruct (store s); cbn; [apply lookup_insert_eq|apply lookup_singleton_eq].
  - intros key' Hne. destruct (store s); cbn.
    + by rewrite lookup_insert_ne.
    + by rewrite lookup_singleton_ne.
Qed.

Lemma X8_store_set_get_witness :
  (Get plainContext "user" (Set_ plainContext "role" "admin" busyState).1).2
  = (Get plainContext "user" busyState).2.
Proof.
  destruct (X8_store_set_get plainContext busyState "role" "admin") as (_ & Hother & _).
  by apply Hother.
Defined.

(** ** Response writers *)

(** X9. [NoContent], [String] and [JSON] change nothing but the
    response, and in its header map nothing but the entry Content-Type;
    [NoContent] leaves the whole header map and the body as they are;
    [JSON] with a value that cannot be marshalled returns the marshalling
    error and leaves the response as it is, status included. *)
Theorem X9_writers_touch_only_the_response {W Any T V : Type}
    (marshal : V → result string) (c : @handlerContext W Any T) (code : Z)
    (str : string) (v : V) (s : state) :
  Forall (λ s' : state,
            request s' = request s ∧ store s' = store s ∧ env s' = env s
            ∧ ∀ k, k ≠ "Content-Type" →
                   Headers (response s') !! k = Headers (response s) !! k)
    [ (NoContent c code s).1; (String_ c code str s).1; (JSON marshal c code v s).1 ]
  ∧ Headers (response (NoContent c code s).1) = Headers (response s)
  ∧ Body_ (response (NoContent c code s).1) = Body_ (response s)
  ∧ ∀ err, marshal v = Err err → JSON marshal c code v s = (s, Some err).
Proof.
  split; [|split; [done|split; [done|]]].
  - repeat constructor; try done.
    + intros k Hk. cbn. by rewrite lookup_insert_ne.
    + unfold JSON. by destruct (marshal v).
    + unfold JSON. by destruct (marshal v).
    + unfold JSON. by destruct (marshal v).
    + intros k Hk. unfold JSON. destruct (marshal v); [|done].
      cbn. by rewrite lookup_insert_ne.
  - intros err Hm. unfold JSON. by rewrite Hm.
Qed.

Lemma X9_writers_touch_only_the_response_witness :
  JSON (λ _ : unit, Err (errors_New "unsupported type")) plainContext 200 tt busyState
  = (busyState, Some (errors_New "unsupported type")).
Proof.
  destruct (X9_writers_touch_only_the_response
              (λ _ : unit, Err (errors_New "unsupported type"))
              plainContext 200 "" tt busyState) as (_ & _ & _ & Hfail).
  by apply Hfail.
Defined.

(** X10. The writers are last-write-wins: writing a text or a JSON value
    over an earlier text gives what writing it alone gives, and
    [NoContent] after a text changes the status and keeps the text and
    its content type. *)
Theorem X10_last_write_wins {W Any T V : Type} (marshal : V → result string)
    (c : @handlerContext W Any T) (code1 code2 : Z) (str1 str2 : string) (v : V)
    (b : string) (s : state) :
  marshal v = Ok b →
  String_ c code2 str2 (String_ c code1 str1 s).1 = String_ c code2 str2 s
  ∧ JSON marshal c code2 v (String_ c code1 str1 s).1 = JSON marshal c code2 v s
  ∧ response (NoContent c code2 (String_ c code1 str1 s).1).1
    = {| StatusCode_ := code2;
         Headers := <["Content-Type" := ["text/plain"]]> (Headers (response s));
         Body_ := str1 |}.
Proof.
  intros Hm. unfold String_, JSON, NoContent, setResponse. rewrite Hm. cbn.
  by rewrite !insert_insert_eq.
Qed.

Lemma X10_last_write_wins_witness :
  String_ plainContext 201 "second" (String_ plainContext 200 "first" busyState).1
  = String_ plainContext 201 "second" busyState.
Proof.
  destruct (X10_last_write_wins (λ _ : unit, Ok "null") plainContext 200 201
              "first" "second" tt "null" busyState eq_refl) as [Hstring _].
  exact Hstring.
Defined.

(** ** Binding under the default callback *)

(** X11. In a context built from a configuration without a bind
    callback, [Bind] never changes the state; an error it returns is a
    status error with code 400 and the body was not empty; when it
    returns no error the target is either untouched, the body being
    empty, or what decoding the body gave. *)
Theorem X11_bind_default_callback {W Any T : Type}
    (Unmarshal : string → T → T * option error) (cfg : @Config W Any T) (v : T)
    (s : state) :
  OnBind cfg = None →
  (Bind Unmarshal (newContext cfg) v s).1 = s
  ∧ (∀ e, (Bind Unmarshal (newContext cfg) v s).2.2 = Some e →
          StatusCode e = 400 ∧ Body (request s) ≠ "")
  ∧ ((Bind Unmarshal (newContext cfg) v s).2.2 = None →
       (Body (request s) = "" ∧ (Bind Unmarshal (newContext cfg) v s).2.1 = v)
       ∨ Unmarshal (Body (request s)) v
         = ((Bind Unmarshal (newContext cfg) v s).2.1, None)).
Proof.
  intros Hcfg. unfold Bind, newContext, onBindOf. rewrite Hcfg. cbn [default onBind].
  destruct (decide (Body (request s) = "")) as [Hb|Hb].
  - split; [done|]. split; [done|]. intros _. by left.
  - destruct (Unmarshal (Body (request s)) v) as [v' [err|]] eqn:Hu; cbn.
    + split; [done|]. split; [|done]. by intros e [= <-].
    + split; [done|]. split; [done|]. intros _. by right.
Qed.

Lemma X11_bind_default_callback_witness :
  (Bind testUnmarshal (newContext (@noConfig nat unit string)) "target"
     (stateWithBody "{")).1
  = stateWithBody "{".
Proof.
  destruct (X11_bind_default_callback testUnmarshal (@noConfig nat unit string)
              "target" (stateWithBody "{") eq_refl) as [Hstate _].
  exact Hstate.
Defined.

(** X12. With the default error handler and empty-response policy and no
    middleware, a handler that returns what [Bind] returns turns a body
    that does not decode into a response: the invocation returns the
    encoding of the response with status 400, content type
    application/json and the decoding error's text as the message. *)
Theorem X12_bad_body_is_a_400_response {W Any T : Type}
    (Unmarshal : string → T → T * option error) (X : Externals) (ro : rangeOrder)
    (cfg : @Config W Any T) (v v' : T) (payload : payload) (w : W) (p : Processor)
    (req : Request) (err : error) :
  Middleware cfg = None →
  OnError cfg = None →
  OnEmptyResponse cfg = None →
  Resolve (resolverOf X ro cfg) payload = Ok p →
  UnmarshalRequest p payload = Ok req →
  Body req ≠ "" →
  Unmarshal (Body req) v = (v', Some err) →
  returned (NewWithConfig X ro cfg (bindHandler Unmarshal v) payload w)
  = MarshalResponse p (errorResponse X 400 (Error err))
  ∧ world (NewWithConfig X ro cfg (bindHandler Unmarshal v) payload w) = w.
Proof.
  intros Hmw Herr Hempty Hr Hd Hbody Hu.
  unfold NewWithConfig, handlerOf, onErrorOf, onEmptyResponseOf.
  rewrite Hr, Hd, Hmw, Herr, Hempty. cbn [default].
  unfold bindHandler, bind, Bind, newState. cbn [request Body].
  rewrite decide_False by done. rewrite Hu. cbn.
  unfold errorResponse. by rewrite insert_empty.
Qed.

Lemma X12_bad_body_is_a_400_response_witness :
  returned (NewWithConfig testJSON keyOrder (@noConfig unit unit string)
              (bindHandler testUnmarshal "target") (list_byte_of_string "{") tt)
  = MarshalResponse (APIGatewayV2HTTPEventProcessor testJSON keyOrder)
      (errorResponse testJSON 400 "unexpected end of JSON input")
  ∧ world (NewWithConfig testJSON keyOrder (@noConfig unit unit string)
             (bindHandler testUnmarshal "target") (list_byte_of_string "{") tt) = tt.
Proof.
  apply (X12_bad_body_is_a_400_response testUnmarshal testJSON keyOrder
           (@noConfig unit unit string) "target" "target" (list_byte_of_string "{") tt
           (APIGatewayV2HTTPEventProcessor testJSON keyOrder)
           (fromAPIGatewayV2HTTPRequest keyOrder (newV2Request "{"))
           (errors_New "unexpected end of JSON input"));
    [reflexivity..|discriminate|reflexivity].
Defined.

(** ** Decoded query strings *)

Lemma Join_cons (x : string) (rest : list string) (sep : string) :
  rest ≠ [] → Join (x :: rest) sep = x +:+ sep +:+ Join rest sep.
Proof. by destruct rest. Qed.

Lemma Join_Split (s : string) (sep : ascii) :
  Join (Strings.Split s sep) (String sep EmptyString) = s.
Proof.
  induction s as [|c s IH]; [done|]. cbn [Strings.Split].
  destruct (Ascii.eqb c sep) eqn:Hc.
  - apply Ascii.eqb_eq in Hc as ->.
    rewrite Join_cons by apply Split_nonempty. by rewrite IH.
  - destruct (Strings.Split s sep) as [|piece rest] eqn:Hs.
    + by destruct (Split_nonempty s sep).
    + destruct rest as [|piece' rest]; cbn [Join] in *; by rewrite <- IH.
Qed.

Lemma Split_pieces (s : string) (sep : ascii) :
  Forall (λ piece, ContainsByte piece sep = false) (Strings.Split s sep).
Proof.
  induction s as [|c s IH]; [by repeat constructor|]. cbn [Strings.Split].
  destruct (Ascii.eqb c sep) eqn:Hc; [by constructor|].
  destruct (Strings.Split s sep) as [|piece rest]; [by repeat constructor; cbn; rewrite Hc|].
  apply Forall_cons in IH as [Hpiece Hrest].
  constructor; [|done]. cbn. by rewrite Hc, Hpiece.
Qed.

(** X13. The Gateway-V2 decoder keeps every query-string key of the
    payload and no other; the values it stores under a key are at least
    one, none of them holds a comma, and joined with commas they give
    back the value the payload carried. *)
Theorem X13_v2_query_round_trip (ro : rangeOrder) (e : APIGatewayV2HTTPRequest)
    (k : string) :
  match index (v2_QueryStringParameters e) k with
  | Some v =>
      ∃ vs, index (Query (fromAPIGatewayV2HTTPRequest ro e)) k = Some vs
            ∧ vs ≠ []
            ∧ Join vs "," = v
            ∧ Forall (λ piece, ContainsByte piece "," = false) vs
  | None => index (Query (fromAPIGatewayV2HTTPRequest ro e)) k = None
  end.
Proof.
  rewrite V2_query_lookup. destruct (index (v2_QueryStringParameters e) k) as [v|]; [|done].
  exists (Strings.Split v ","). split; [done|]. split; [apply Split_nonempty|].
  split; [apply Join_Split|apply Split_pieces].
Qed.

(** ** Decoded maps *)

(** X14. In a request decoded by the Gateway-V2 or the Load-Balancer
    processor no key of the query map or of the header map holds an
    empty list, every key of the header map is in canonical form, and
    the header lookups by a key of the map return what the map holds
    under it: [Values] the list, [Get] its first element. *)
Theorem X14_decoded_maps_are_well_formed (ro : rangeOrder) (req : Request)
    (K : string) (vs : list string) :
  (∃ e, req = fromAPIGatewayV2HTTPRequest ro e)
  ∨ (∃ e, req = fromALBTargetGroupRequest ro e) →
  (index (Query req) K = Some vs → vs ≠ [])
  ∧ (index (Header req) K = Some vs →
       vs ≠ []
       ∧ Textproto.CanonicalMIMEHeaderKey K = K
       ∧ Http.Values (Header req) K = vs
       ∧ head vs = Some (Http.Get (Header req) K)).
Proof.
  intros Hreq. split.
  - destruct Hreq as [[e ->]|[e ->]].
    + rewrite V2_query_lookup.
      destruct (index (v2_QueryStringParameters e) K); [|done].
      intros [= <-]. apply Split_nonempty.
    + rewrite ALB_query_lookup. by intros [_ ?]%stored_Some.
  - intros HK.
    assert (Hkeys : Textproto.CanonicalMIMEHeaderKey K = K ∧ vs ≠ []).
    { destruct Hreq as [[e ->]|[e ->]].
      - by apply (V2_header_keys ro e).
      - by apply (ALB_header_keys ro e). }
    destruct Hkeys as [Hcanon Hne]. unfold Http.Values, Http.Get.
    rewrite Hcanon, HK. by destruct vs.
Qed.

Lemma X14_decoded_maps_are_well_formed_witness :
  Textproto.CanonicalMIMEHeaderKey "X-Custom-Header1" = "X-Custom-Header1"
  ∧ Http.Values
      (Header (fromALBTargetGroupRequest keyOrder
                 (albRequest None None (Some {[ "x-custom-header1" := "v1" ]}) None)))
      "X-Custom-Header1" = ["v1"]
  ∧ Some "v1"
    = Some (Http.Get
              (Header (fromALBTargetGroupRequest keyOrder
                         (albRequest None None
                            (Some {[ "x-custom-header1" := "v1" ]}) None)))
              "X-Custom-Header1").
Proof.
  destruct (X14_decoded_maps_are_well_formed keyOrder
              (fromALBTargetGroupRequest keyOrder
                 (albRequest None None (Some {[ "x-custom-header1" := "v1" ]}) None))
              "X-Custom-Header1" ["v1"]) as [_ Hheader].
  - right. eexists. reflexivity.
  - destruct Hheader as (_ & Hcanon & Hvalues & Hget); [reflexivity|].
    by repeat split.
Defined.

(** ** Independence of the visiting order *)

Lemma range_orders (ro ro' : rangeOrder) {V : Type} (m : gmap string V) :
  range ro m ≡ₚ range ro' m.
Proof. by rewrite (range_Permutation ro V m), (range_Permutation ro' V m). Qed.

(** X15. The order in which Go visits the maps makes no difference to
    the query map decoded by the Gateway-V2 and the Load-Balancer
    processors, nor to the single-value header map of an encoded
    response. *)
Theorem X15_order_independent (ro ro' : rangeOrder) :
  (∀ e, Query (fromAPIGatewayV2HTTPRequest ro e)
        = Query (fromAPIGatewayV2HTTPRequest ro' e))
  ∧ (∀ e, Query (fromALBTargetGroupRequest ro e)
          = Query (fromALBTargetGroupRequest ro' e))
  ∧ (∀ h, reduceHeaders ro h = reduceHeaders ro' h)
  ∧ (∀ r, toAPIGatewayProxyResponse ro r = toAPIGatewayProxyResponse ro' r)
  ∧ (∀ r, toAPIGatewayV2HTTPResponse ro r = toAPIGatewayV2HTTPResponse ro' r)
  ∧ (∀ X r, toALBTargetGroupResponse X ro r = toALBTargetGroupResponse X ro' r).
Proof.
  assert (Hreduce : ∀ h, reduceHeaders ro h = reduceHeaders ro' h).
  { intros h. apply map_eq. intros k. by rewrite !reduceHeaders_lookup. }
  split; [|split; [|split; [done|]]].
  - intros e.
    pose proof (V2_query_lookup ro e) as H1. pose proof (V2_query_lookup ro' e) as H2.
    destruct (Query (fromAPIGatewayV2HTTPRequest ro e)) as [q|] eqn:Hq;
      destruct (Query (fromAPIGatewayV2HTTPRequest ro' e)) as [q'|] eqn:Hq'; try done.
    f_equal. apply map_eq. intros K. specialize (H1 K). specialize (H2 K).
    cbn in H1, H2. congruence.
  - intros e.
    pose proof (ALB_query_lookup ro e) as H1. pose proof (ALB_query_lookup ro' e) as H2.
    destruct (Query (fromALBTargetGroupRequest ro e)) as [q|] eqn:Hq;
      destruct (Query (fromALBTargetGroupRequest ro' e)) as [q'|] eqn:Hq'; try done.
    f_equal. apply map_eq. intros K. specialize (H1 K). specialize (H2 K).
    cbn in H1, H2. congruence.
  - unfold toAPIGatewayProxyResponse, toAPIGatewayV2HTTPResponse,
      toALBTargetGroupResponse.
    repeat split; intros; by rewrite Hreduce.
Qed.

(** X16. Whatever the visiting order, the header map decoded by the
    Gateway-V2 and the Load-Balancer processors holds under each key the
    same values; only their order under one key can differ (when the
    payload carries a header under names that differ in letter case
    only). *)
Theorem X16_headers_up_to_order (ro ro' : rangeOrder) (K : string) :
  (∀ e, default [] (index (Header (fromAPIGatewayV2HTTPRequest ro e)) K)
        ≡ₚ default [] (index (Header (fromAPIGatewayV2HTTPRequest ro' e)) K))
  ∧ (∀ e, default [] (index (Header (fromALBTargetGroupRequest ro e)) K)
          ≡ₚ default [] (index (Header (fromALBTargetGroupRequest ro' e)) K)).
Proof.
  split; intros e.
  - rewrite !V2_header_lookup, !default_stored. unfold valuesUnder, entries.
    by rewrite (range_orders ro ro').
  - rewrite !ALB_header_lookup, !default_stored. unfold valuesUnder, entries, flat.
    by rewrite (range_orders ro ro' (default ∅ (alb_Headers e))),
               (range_orders ro ro' (default ∅ (alb_MultiValueHeaders e))).
Qed.

(** The header x-a next to the header X-A: the two visiting orders give
    the two orders of the values. *)
Example header_order_depends_on_visit :
  index (Header (fromAPIGatewayV2HTTPRequest keyOrder
                   (v2Request (Some (<["x-a" := "1"]> {[ "X-A" := "2" ]})) None))) "X-A"
  = Some ["1"; "2"]
  ∧ index (Header (fromAPIGatewayV2HTTPRequest reverseKeyOrder
                     (v2Request (Some (<["x-a" := "1"]> {[ "X-A" := "2" ]})) None))) "X-A"
    = Some ["2"; "1"].
Proof. by vm_compute. Qed.

(** ** Status errors behind wrappers *)

Lemma As_wrappedIn (msgs : list string) (e : error) : As (wrappedIn msgs e) = As e.
Proof. induction msgs as [|msg msgs IH]; [done|]. exact IH. Qed.

Lemma Error_wrappedIn (msgs : list string) (e : error) :
  Error (wrappedIn msgs e) = default (Error e) (head msgs).
Proof. by destruct msgs. Qed.

(** X17. A status error keeps its code when it is wrapped in errors that
    have a message of their own and no code: [StatusCode] still gives
    the code, while the message is the outermost wrapper's, and that is
    what the default error handler sends.  Of two nested status errors
    the outer code wins and the message stays the innermost error's.  An
    error without any status error in its chain gives 500. *)
Theorem X17_status_behind_wrappers {W Any T : Type} (X : Externals)
    (c : @handlerContext W Any T) (msgs : list string) (s : state) :
  (∀ code e,
     StatusCode (wrappedIn msgs (WrapError code e)) = code
     ∧ Error (wrappedIn msgs (WrapError code e)) = default (Error e) (head msgs)
     ∧ defaultErrorHandler X c (wrappedIn msgs (WrapError code e)) s
       = (setResponse
            {| StatusCode_ := code;
               Headers := <["Content-Type" := ["application/json"]]>
                            (Headers (response s));
               Body_ := "{" +:+ quote +:+ "message" +:+ quote +:+ ":"
                        +:+ Marshal_string X (default (Error e) (head msgs))
                        +:+ "}" |} s,
          None))
  ∧ (∀ code1 code2 e,
       StatusCode (WrapError code1 (WrapError code2 e)) = code1
       ∧ Error (WrapError code1 (WrapError code2 e)) = Error e
       ∧ Unwrap (WrapError code1 (WrapError code2 e)) = Some (WrapError code2 e))
  ∧ (∀ text, StatusCode (wrappedIn msgs (errors_New text)) = 500).
Proof.
  split; [|split].
  - intros code e.
    assert (Hcode : StatusCode (wrappedIn msgs (WrapError code e)) = code).
    { unfold StatusCode. by rewrite As_wrappedIn. }
    assert (Htext : Error (wrappedIn msgs (WrapError code e))
                    = default (Error e) (head msgs)).
    { by rewrite Error_wrappedIn. }
    split; [done|]. split; [done|].
    unfold defaultErrorHandler, JSON, marshalMessage.
    by rewrite Hcode, Htext.
  - done.
  - intros text. unfold StatusCode. by rewrite As_wrappedIn.
Qed.

(** ** The accessors on a decoded request *)

(** X18. What a handler reads, in the state the pipeline starts it in.
    [Query] gives, for a Gateway-V2 event, the part of the payload's
    value before its first comma; for a Load-Balancer event the
    single-valued parameter when there is one and else the first of the
    multi-valued ones; for a Gateway-Proxy event the first of the
    multi-valued parameters, the single-valued ones being ignored; the
    empty string when the key is missing.  [Path] gives the empty string
    for every key of a Load-Balancer event.  The accessors leave the
    state as it is. *)
Theorem X18_accessors_on_decoded_requests {W Any T : Type} (ro : rangeOrder)
    (c : @handlerContext W Any T) (key : string) (w : W) :
  (∀ e,
     Query_ c key (newState (fromAPIGatewayV2HTTPRequest ro e) w)
     = (newState (fromAPIGatewayV2HTTPRequest ro e) w,
        match index (v2_QueryStringParameters e) key with
        | Some v => default "" (head (Strings.Split v ","))
        | None => ""
        end))
  ∧ (∀ e,
       Query_ c key (newState (fromALBTargetGroupRequest ro e) w)
       = (newState (fromALBTargetGroupRequest ro e) w,
          match index (alb_QueryStringParameters e) key with
          | Some v => v
          | None =>
              default "" (head (default []
                                  (index (alb_MultiValueQueryStringParameters e) key)))
          end))
  ∧ (∀ e,
       Query_ c key (newState (fromAPIGatewayProxyRequest e) w)
       = (newState (fromAPIGatewayProxyRequest e) w,
          default "" (head (default []
                              (index (gw_MultiValueQueryStringParameters e) key)))))
  ∧ (∀ e,
       Path_ c key (newState (fromALBTargetGroupRequest ro e) w)
       = (newState (fromALBTargetGroupRequest ro e) w, "")).
Proof.
  split; [|split; [|split]]; intros e.
  - unfold Query_, Url.Get. f_equal.
    change (request (newState (fromAPIGatewayV2HTTPRequest ro e) w))
      with (fromAPIGatewayV2HTTPRequest ro e).
    rewrite V2_query_lookup.
    destruct (index (v2_QueryStringParameters e) key) as [v|]; [|done].
    cbn [fmap option_fmap option_map]. by destruct (Strings.Split v ",").
  - unfold Query_, Url.Get. f_equal.
    change (request (newState (fromALBTargetGroupRequest ro e) w))
      with (fromALBTargetGroupRequest ro e).
    rewrite ALB_query_lookup.
    destruct (index (alb_QueryStringParameters e) key) as [v|]; [done|].
    cbn [option_list app].
    by destruct (index (alb_MultiValueQueryStringParameters e) key) as [[|x l]|].
  - unfold Query_, Url.Get. f_equal.
    change (Query (request (newState (fromAPIGatewayProxyRequest e) w)))
      with (gw_MultiValueQueryStringParameters e).
    by destruct (index (gw_MultiValueQueryStringParameters e) key) as [[|x l]|].
  - unfold Path_. f_equal.
Qed.

(** ** Header lookup, any letter case *)

Lemma filter_ext_elem {A : Type} (P Q : A → Prop)
    `{∀ x, Decision (P x)} `{∀ x, Decision (Q x)} (l : list A) :
  (∀ x, x ∈ l → (P x ↔ Q x)) → filter P l = filter Q l.
Proof.
  induction l as [|x l IH]; [done|]. intros HPQ.
  rewrite !filter_cons, IH by (intros y Hy; apply HPQ; by right).
  destruct (HPQ x) as [HP HQ]; [by left|].
  repeat case_decide; tauto.
Qed.

(** When the payload carries a header under one name only among those
    of its canonical form, a lookup by any name of that canonical form
    gives exactly the payload's value. *)
Lemma V2_header_same_canonical_form (ro : rangeOrder) (e : APIGatewayV2HTTPRequest)
    (k v key : string) :
  index (v2_Headers e) k = Some v →
  (∀ k', is_Some (index (v2_Headers e) k') →
         Textproto.CanonicalMIMEHeaderKey k' = Textproto.CanonicalMIMEHeaderKey k →
         k' = k) →
  Textproto.CanonicalMIMEHeaderKey key = Textproto.CanonicalMIMEHeaderKey k →
  Http.Values (Header (fromAPIGatewayV2HTTPRequest ro e)) key = [v]
  ∧ Http.Get (Header (fromAPIGatewayV2HTTPRequest ro e)) key = v.
Proof.
  intros Hk Huniq Hkey.
  assert (HV : Http.Values (Header (fromAPIGatewayV2HTTPRequest ro e)) key = [v]).
  { rewrite V2_header_Values, Hkey. unfold valuesUnder, entries.
    rewrite (filter_ext_elem _ (λ kv, kv.1 = k)).
    - by rewrite filter_key_range, default_empty_lookup, Hk.
    - intros [k' v'] Hin. cbn [fst]. apply range_elem_of in Hin.
      split; [|by intros ->]. intros Hc. apply Huniq; [|done].
      rewrite <- default_empty_lookup. by exists v'. }
  split; [done|]. unfold Http.Get, Http.Values in *.
  destruct (index (Header (fromAPIGatewayV2HTTPRequest ro e))
              (Textproto.CanonicalMIMEHeaderKey key)) as [[|x l]|];
    cbn in HV; congruence.
Qed.

(** The canonical form of a name of token bytes depends on the name up
    to letter case only, and conversely. *)
Lemma canonicalByte_lowerByte (upper : bool) (c : ascii) :
  Textproto.canonicalByte upper (lowerByte c) = Textproto.canonicalByte upper c.
Proof.
  destruct upper; destruct c as [[] [] [] [] [] [] [] []]; reflexivity.
Qed.

Lemma lowerByte_canonicalByte (upper : bool) (c : ascii) :
  lowerByte (Textproto.canonicalByte upper c) = lowerByte c.
Proof.
  destruct upper; destruct c as [[] [] [] [] [] [] [] []]; reflexivity.
Qed.

Lemma validHeaderFieldByte_lowerByte (c : ascii) :
  Textproto.validHeaderFieldByte (lowerByte c) = Textproto.validHeaderFieldByte c.
Proof. destruct c as [[] [] [] [] [] [] [] []]; reflexivity. Qed.

Lemma canonicalize_ToLower (upper : bool) (s : string) :
  Textproto.canonicalize upper (ToLower s) = Textproto.canonicalize upper s.
Proof.
  revert upper. induction s as [|c s IH]; intros upper; [done|].
  cbn [ToLower Textproto.canonicalize]. by rewrite canonicalByte_lowerByte, IH.
Qed.

Lemma ToLower_canonicalize (upper : bool) (s : string) :
  ToLower (Textproto.canonicalize upper s) = ToLower s.
Proof.
  revert upper. induction s as [|c s IH]; intros upper; [done|].
  cbn [ToLower Textproto.canonicalize]. by rewrite lowerByte_canonicalByte, IH.
Qed.

Lemma valid_ToLower (s : string) :
  Bytes.all Textproto.validHeaderFieldByte (ToLower s)
  = Bytes.all Textproto.validHeaderFieldByte s.
Proof.
  induction s as [|c s IH]; [done|].
  cbn [ToLower Bytes.all]. by rewrite validHeaderFieldByte_lowerByte, IH.
Qed.

Lemma canonical_form_letter_case (k k' : string) :
  Bytes.all Textproto.validHeaderFieldByte k = true →
  Textproto.CanonicalMIMEHeaderKey k' = Textproto.CanonicalMIMEHeaderKey k
  ↔ ToLower k' = ToLower k.
Proof.
  intros Hk. unfold Textproto.CanonicalMIMEHeaderKey. rewrite Hk. split.
  - destruct (Bytes.all Textproto.validHeaderFieldByte k') eqn:Hk'.
    + intros Heq. by rewrite <- (ToLower_canonicalize true k'), Heq, ToLower_canonicalize.
    + intros ->. by rewrite canonicalize_valid in Hk'.
  - intros Heq.
    assert (Hk' : Bytes.all Textproto.validHeaderFieldByte k' = true).
    { by rewrite <- valid_ToLower, Heq, valid_ToLower. }
    rewrite Hk'.
    by rewrite <- (canonicalize_ToLower true k'), Heq, canonicalize_ToLower.
Qed.

(** X19. When the Gateway-V2 payload carries a header under a name made
    of token bytes (letters, digits and the punctuation HTTP allows in a
    header name), and under no other name that differs from it in the
    case of its letters alone, a lookup by that name in any letter case
    gives exactly the payload's value: the value is kept whole, not
    split at commas. *)
Theorem X19_v2_header_any_casing (ro : rangeOrder) (e : APIGatewayV2HTTPRequest)
    (k v key : string) :
  index (v2_Headers e) k = Some v →
  Bytes.all Textproto.validHeaderFieldByte k = true →
  (∀ k', is_Some (index (v2_Headers e) k') → ToLower k' = ToLower k → k' = k) →
  ToLower key = ToLower k →
  Http.Values (Header (fromAPIGatewayV2HTTPRequest ro e)) key = [v]
  ∧ Http.Get (Header (fromAPIGatewayV2HTTPRequest ro e)) key = v.
Proof.
  intros Hk Hvalid Huniq Hkey.
  apply (V2_header_same_canonical_form ro e k v key); [done| |].
  - intros k' Hk' Hc. apply Huniq; [done|]. by apply canonical_form_letter_case.
  - by apply canonical_form_letter_case.
Qed.

Lemma X19_v2_header_any_casing_witness :
  Http.Values
    (Header (fromAPIGatewayV2HTTPRequest keyOrder
               (v2Request (Some {[ "x-request-id" := "a,b" ]}) None)))
    "X-REQUEST-id" = ["a,b"]
  ∧ Http.Get
      (Header (fromAPIGatewayV2HTTPRequest keyOrder
                 (v2Request (Some {[ "x-request-id" := "a,b" ]}) None)))
      "X-REQUEST-id" = "a,b".
Proof.
  apply (X19_v2_header_any_casing keyOrder
           (v2Request (Some {[ "x-request-id" := "a,b" ]}) None)
           "x-request-id" "a,b" "X-REQUEST-id").
  - reflexivity.
  - reflexivity.
  - intros k' [x Hx]. simpl in Hx. by apply lookup_singleton_Some in Hx as [<- _].
  - reflexivity.
Defined.

(** ** The default resolver *)

(** X20. Where gjson gives the empty string for a version field that
    does not exist, no payload is accepted by both Gateway processors,
    so the default resolver picks the same processor whichever of the
    two it asks first.  A payload with a version field other than 2.0,
    and one without the path requestContext.apiId, is accepted by
    neither: it goes to the Load-Balancer processor when the path
    requestContext.elb exists and is an unsupported event type
    otherwise. *)
Theorem X20_default_resolver_dispatch (X : Externals) (ro : rangeOrder)
    (payload : payload) :
  (gjson_Exists X payload "version" = false → gjson_String X payload "version" = "") →
  ¬ (CanProcess (APIGatewayProxyEventProcessor X ro) payload = true
     ∧ CanProcess (APIGatewayV2HTTPEventProcessor X ro) payload = true)
  ∧ Resolve (defaultResolver X ro) payload
    = Resolve (NewConditionalResolver
                 [ APIGatewayV2HTTPEventProcessor X ro;
                   APIGatewayProxyEventProcessor X ro;
                   ALBTargetGroupEventProcessor X ro ]) payload
  ∧ ((gjson_Exists X payload "version" = true
      ∧ gjson_String X payload "version" ≠ "2.0")
     ∨ gjson_Exists X payload "requestContext.apiId" = false →
     Resolve (defaultResolver X ro) payload
     = if gjson_Exists X payload "requestContext.elb"
       then Ok (ALBTargetGroupEventProcessor X ro)
       else Err ErrUnsupportedEventType).
Proof.
  intros Hlaw.
  unfold Resolve, defaultResolver. cbn [NewConditionalResolver CanProcess
    APIGatewayProxyEventProcessor APIGatewayV2HTTPEventProcessor
    ALBTargetGroupEventProcessor].
  destruct (gjson_Exists X payload "version") eqn:Hv.
  - cbn [negb andb]. split; [by intros [? _]|]. split; [done|].
    intros [[_ Hne]|Hid].
    + apply String.eqb_neq in Hne. by rewrite Hne.
    + rewrite Hid. by rewrite andb_false_r.
  - rewrite (Hlaw eq_refl). cbn [negb andb].
    change (String.eqb "" "2.0") with false. cbn [andb].
    split; [by intros [_ ?]|]. split; [done|].
    intros [[? _]|Hid]; [done|]. by rewrite Hid.
Qed.

Lemma X20_default_resolver_dispatch_witness :
  ¬ (CanProcess (APIGatewayProxyEventProcessor proxyJSON keyOrder) [] = true
     ∧ CanProcess (APIGatewayV2HTTPEventProcessor proxyJSON keyOrder) [] = true)
  ∧ Resolve (defaultResolver proxyJSON keyOrder) []
    = Resolve (NewConditionalResolver
                 [ APIGatewayV2HTTPEventProcessor proxyJSON keyOrder;
                   APIGatewayProxyEventProcessor proxyJSON keyOrder;
                   ALBTargetGroupEventProcessor proxyJSON keyOrder ]) [].
Proof.
  destruct (X20_default_resolver_dispatch proxyJSON keyOrder [])
    as (Hexcl & Hsame & _); [reflexivity|].
  by split.
Defined.
